(** * AnaliticsApp: the reader framework, its dispatch and validation engine

    A shallow embedding of [files.py] (parameter validation, the reader class
    hierarchy, [FileManager]) and of [database.py] ([ChartHistory]), followed
    by the properties of the specification that were checked against it.

    Python dictionaries are finite maps ([gmap]), Python sets are [gset],
    exceptions are the [Raise] branch of a small error monad, and the
    libraries the program calls (pandas, matplotlib, the SQL store) are
    explicit parameters or explicit state. *)

From Stdlib Require Import ZArith Ascii String.
From stdpp Require Import base strings gmap list pretty sorting.

Open Scope string_scope.

(** ** Python values, types and exceptions *)

Module Py.

(** The type objects that occur as declared parameter types or as the
    runtime type of a supplied value.  [bool] is a subclass of [int] in
    Python, but [type(True)] is [bool], a different type object. *)
Inductive pytype := Tstr | Tint | Tbool | TNoneType.

Global Instance pytype_eq_dec : EqDecision pytype.
Proof. solve_decision. Defined.

Inductive pyval :=
| VNone
| VBool (b : bool)
| VInt (z : Z)
| VStr (s : string).

Global Instance pyval_eq_dec : EqDecision pyval.
Proof. solve_decision. Defined.

(** [type(v)] *)
Definition type_of (v : pyval) : pytype :=
  match v with
  | VNone => TNoneType
  | VBool _ => Tbool
  | VInt _ => Tint
  | VStr _ => Tstr
  end.

(** [bool(v)]: [None], [False], [0] and [''] are falsy. *)
Definition truthy (v : pyval) : bool :=
  match v with
  | VNone => false
  | VBool b => b
  | VInt z => negb (z =? 0)%Z
  | VStr s => negb (String.eqb s "")
  end.

(** [str(v)], as used by f-strings. *)
Definition str (v : pyval) : string :=
  match v with
  | VNone => "None"
  | VBool true => "True"
  | VBool false => "False"
  | VInt z => pretty z
  | VStr s => s
  end.

(** The [assert] statements of the program, one tag per statement. *)
Inductive assertion :=
| ParametersNotGiven                      (* files.py:12 *)
| ParametersMissing (names : gset string) (* files.py:19 *)
| ExtensionNotDeclared                    (* files.py:93, 125 *)
| SuffixMismatch                          (* files.py:126 *)
| NoDotInPath                             (* files.py:268 *)
| ExtensionNotAllowed                     (* files.py:271 *)
| ExtensionNotSupported                   (* files.py:275 *)
| ReaderClassNotFound.                    (* files.py:284 *)

Inductive type_error :=
| WrongFieldType (field : string) (required actual : pytype) (* files.py:33 *)
| NotCallable            (* raise NotImplemented(...) *)
| NotSubscriptable       (* None[key] *)
| ListIndexNotInteger    (* [df, ...][key] with a key that is no integer *)
| NotIterable            (* '.' in None *)
| BadArguments.          (* wrong positional or duplicated arguments *)

Inductive exn :=
| AssertionError (a : assertion)
| ValueError (field : string)
| TypeError (t : type_error)
| KeyError (key : pyval)
| IndexError
| OverflowError
| IntegrityError
| ExternalError (msg : string).  (* raised inside pandas or the driver *)

Inductive result (A : Type) :=
| Ok (a : A)
| Raise (e : exn).
Global Arguments Ok {A} a.
Global Arguments Raise {A} e.

Global Instance result_ret : MRet result := λ A a, Ok a.
Global Instance result_bind : MBind result := λ A B f m,
  match m with
  | Ok a => f a
  | Raise e => Raise e
  end.

Definition py_assert (cond : bool) (a : assertion) : result unit :=
  if cond then Ok tt else Raise (AssertionError a).

(** The names the specification gives to the failures. *)
Definition MissingParametersError names := AssertionError (ParametersMissing names).
Definition EmptyValueError field := ValueError field.
Definition TypeMismatchError field required actual :=
  TypeError (WrongFieldType field required actual).
Definition UnknownExtensionError := AssertionError ExtensionNotAllowed.
Definition UnsupportedExtensionError := AssertionError ExtensionNotSupported.
Definition ReaderNotFoundError := AssertionError ReaderClassNotFound.

(** [s.split(sep)] for a one-character separator. *)
Fixpoint split (sep : ascii) (s : string) : list string :=
  match s with
  | EmptyString => [EmptyString]
  | String c rest =>
      if Ascii.eqb c sep then EmptyString :: split sep rest
      else match split sep rest with
           | [] => [String c EmptyString]
           | w :: ws => String c w :: ws
           end
  end.

(** [sep in s] for a one-character [sep]. *)
Fixpoint contains (sep : ascii) (s : string) : bool :=
  match s with
  | EmptyString => false
  | String c rest => Ascii.eqb c sep || contains sep rest
  end.

(** [s.endswith(suffix)] *)
Definition endswith (s suffix : string) : bool :=
  Nat.leb (String.length suffix) (String.length s)
  && String.eqb
       (String.substring (String.length s - String.length suffix)
                         (String.length suffix) s)
       suffix.

End Py.
Import Py.

(** ** Parameter validation ([files.py], lines 8-36) *)

Module Files.

(** The body of the [for] loop for one [field]. *)
Definition check_field (required_fields : gmap string pytype)
    (provided_fields : gmap string pyval) (field : string) : result unit :=
  match provided_fields !! field with
  | None => Raise (KeyError (VStr field))
  | Some value =>
      let field_type := type_of value in
      match required_fields !! field with
      | None => Raise (KeyError (VStr field))
      | Some required_field_type =>
          if negb (truthy value) then Raise (ValueError field)
          else if bool_decide (field_type ≠ required_field_type)
          then Raise (TypeError (WrongFieldType field required_field_type field_type))
          else Ok tt
      end
  end.

(** The loop, over the keys in the order the iteration visits them. *)
Fixpoint check_fields (required_fields : gmap string pytype)
    (provided_fields : gmap string pyval) (fields : list string) : result unit :=
  match fields with
  | [] => Ok tt
  | field :: rest =>
      _ ← check_field required_fields provided_fields field;
      check_fields required_fields provided_fields rest
  end.

(** [validate_required_fields], with the iteration order of the set of
    provided keys given by [order]. *)
Definition validate_required_fields_in (order : gset string → list string)
    (required_fields : gmap string pytype)
    (provided_fields : gmap string pyval) : result unit :=
  if bool_decide (required_fields = ∅) then Ok tt
  else
    _ ← py_assert (negb (bool_decide (provided_fields = ∅))) ParametersNotGiven;
    let extra_kwargs_keys := dom provided_fields in
    let required_fields_keys := dom required_fields in
    _ ← py_assert (bool_decide (required_fields_keys ∖ extra_kwargs_keys = ∅))
          (ParametersMissing (required_fields_keys ∖ extra_kwargs_keys));
    check_fields required_fields provided_fields (order extra_kwargs_keys).

Definition validate_required_fields :=
  validate_required_fields_in elements.

End Files.
Import Files.

(** ** The table library (pandas), as far as the program uses it *)

Module Pandas.

Inductive dtype := int64 | float64 | complex128 | bool_ | datetime64 | object_.

(** [np.number] covers the integer, floating and complex dtypes. *)
Definition is_number (d : dtype) : bool :=
  match d with
  | int64 | float64 | complex128 => true
  | bool_ | datetime64 | object_ => false
  end.

Record Series := { name : string; dtype_of : dtype; values : list pyval }.

(** A table: its columns, in order, with string labels. *)
Definition DataFrame := list Series.

Definition columns (df : DataFrame) : list string := name <$> df.

(** [df.select_dtypes(include=np.number)]: a NEW table holding the numeric
    columns; [df] itself is left as it is. *)
Definition select_dtypes_number (df : DataFrame) : DataFrame :=
  List.filter (λ c, is_number (dtype_of c)) df.


(** [df[key]] *)
Definition getitem (df : DataFrame) (key : pyval) : result Series :=
  match key with
  | VStr label =>
      match List.find (λ c, String.eqb (name c) label) df with
      | Some c => Ok c
      | None => Raise (KeyError key)
      end
  | _ => Raise (KeyError key)
  end.

(** The decoding functions, which read the outside world. *)
Record api := {
  read_csv : string → result DataFrame;
  read_json : string → result DataFrame;
  read_pickle : string → result DataFrame;
  read_html : string → result (list DataFrame);
  read_xml : string → result DataFrame;
  (* table_name, connection url *)
  read_sql_table : pyval → string → result DataFrame
}.

End Pandas.

(** What a call of [read] can evaluate to. *)
Inductive pyobj :=
| ODataFrame (df : Pandas.DataFrame)
| OList (dfs : list Pandas.DataFrame)
| ONone.

(** ** The reader hierarchy ([files.py], lines 39-221) *)

Module Reader.

Inductive reader_class :=
| BaseReader | BaseRemoteDatabaseReader | BaseFileReader
| CsvReader | JsonReader | PickleReader | HtmlReader | XmlReader | SqliteReader
| MySQLReader | PostgreSQlReader | MariaDBReader.

Global Instance reader_class_eq_dec : EqDecision reader_class.
Proof. solve_decision. Defined.

(** The classes in the order the module defines them. *)
Definition classes : list reader_class :=
  [ BaseReader; BaseRemoteDatabaseReader; BaseFileReader;
    CsvReader; JsonReader; PickleReader; HtmlReader; XmlReader; SqliteReader;
    MySQLReader; PostgreSQlReader; MariaDBReader ].

Definition base (cls : reader_class) : option reader_class :=
  match cls with
  | BaseReader => None
  | BaseRemoteDatabaseReader | BaseFileReader => Some BaseReader
  | CsvReader | JsonReader | PickleReader | HtmlReader | XmlReader
  | SqliteReader => Some BaseFileReader
  | MySQLReader | PostgreSQlReader | MariaDBReader => Some BaseRemoteDatabaseReader
  end.

(** [cls.__subclasses__()]: the direct subclasses, in definition order. *)
Definition subclasses (cls : reader_class) : list reader_class :=
  List.filter (λ c, bool_decide (base c = Some cls)) classes.

(** Method resolution order; the hierarchy is three levels deep. *)
Fixpoint mro_from (depth : nat) (cls : reader_class) : list reader_class :=
  cls :: match depth, base cls with
         | S d, Some b => mro_from d b
         | _, _ => []
         end.
Definition mro : reader_class → list reader_class := mro_from 2.

(** Attribute lookup: the first class of the mro that declares it. *)
Fixpoint lookup_attr {A} (own : reader_class → option A)
    (order : list reader_class) : option A :=
  match order with
  | [] => None
  | c :: rest => match own c with
                 | Some a => Some a
                 | None => lookup_attr own rest
                 end
  end.
Definition getattr {A} (own : reader_class → option A) (cls : reader_class) :=
  lookup_attr own (mro cls).

(** The class bodies. *)
Definition own_allowed_extension (cls : reader_class) : option (option string) :=
  match cls with
  | BaseReader => Some None
  | CsvReader => Some (Some "csv")
  | JsonReader => Some (Some "json")
  | PickleReader => Some (Some "pickle")
  | HtmlReader => Some (Some "html")
  | XmlReader => Some (Some "xml")
  | SqliteReader => Some (Some "db")
  | MySQLReader => Some (Some "mysql+pymysql")
  | PostgreSQlReader => Some (Some "postgresql+psycopg2")
  | MariaDBReader => Some (Some "mariadb+pymysql")
  | _ => None
  end.

Definition own_required_fields (cls : reader_class) : option (gmap string pytype) :=
  match cls with
  | BaseReader => Some ∅
  | BaseRemoteDatabaseReader =>
      Some (<["table_name" := Tstr]> (<["hostname" := Tstr]> (<["port" := Tstr]>
           (<["user" := Tstr]> (<["password" := Tstr]> (<["schema" := Tstr]> ∅))))))
  | SqliteReader => Some (<["table_name" := Tstr]> ∅)
  | _ => None
  end.

Definition own_required_fields_verbose_names (cls : reader_class)
    : option (gmap string string) :=
  match cls with
  | BaseReader => Some ∅
  | BaseRemoteDatabaseReader =>
      Some (<["table_name" := "Название таблицы"]> (<["hostname" := "Хост"]>
           (<["port" := "Порт"]> (<["user" := "Пользователь"]>
           (<["password" := "Пароль"]> (<["schema" := "База данных"]> ∅))))))
  | SqliteReader => Some (<["table_name" := "Название таблицы"]> ∅)
  | _ => None
  end.

Definition own_is_remote (cls : reader_class) : option bool :=
  match cls with
  | BaseReader => Some false
  | BaseRemoteDatabaseReader => Some true
  | _ => None
  end.

(** [None] stands for both Python's [None] and a class without the
    attribute; every class inherits a declaration from [BaseReader]. *)
Definition allowed_extension (cls : reader_class) : option string :=
  mjoin (getattr own_allowed_extension cls).
Definition required_fields (cls : reader_class) : gmap string pytype :=
  default ∅ (getattr own_required_fields cls).
Definition required_fields_verbose_names (cls : reader_class) : gmap string string :=
  default ∅ (getattr own_required_fields_verbose_names cls).
Definition is_remote (cls : reader_class) : bool :=
  default false (getattr own_is_remote cls).

(** An instance, after [__init__] has stored its arguments. *)
Record reader := {
  class_of : reader_class;
  file_path : string;
  extra_kwargs : gmap string pyval;
  no_validate : pyval
}.

(** Truth value of [self.allowed_extension]. *)
Definition extension_declared (cls : reader_class) : bool :=
  match allowed_extension cls with
  | Some ext => negb (String.eqb ext "")
  | None => false
  end.

(** The three bodies of [validate_file_path] and the class each is in. *)
Inductive validate_file_path_body := vfp_base | vfp_remote | vfp_file.

Definition own_validate_file_path (cls : reader_class) : option validate_file_path_body :=
  match cls with
  | BaseReader => Some vfp_base
  | BaseRemoteDatabaseReader => Some vfp_remote
  | BaseFileReader => Some vfp_file
  | _ => None
  end.

Definition validate_file_path (self : reader) : result unit :=
  match getattr own_validate_file_path (class_of self) with
  | Some vfp_remote =>
      py_assert (extension_declared (class_of self)) ExtensionNotDeclared
  | Some vfp_file =>
      _ ← py_assert (extension_declared (class_of self)) ExtensionNotDeclared;
      py_assert (endswith (file_path self) (default "" (allowed_extension (class_of self))))
                SuffixMismatch
  | _ => Raise (TypeError NotCallable)
  end.

(** [BaseReader.validate_required_fields] *)
Definition validate_required_fields (self : reader) : result unit :=
  Files.validate_required_fields (required_fields (class_of self)) (extra_kwargs self).

(** [reader_class(file_path, no_validate, **kwargs)] *)
Definition init (cls : reader_class) (file_path : string) (no_validate : pyval)
    (kwargs : gmap string pyval) : result reader :=
  let self := {| class_of := cls; file_path := file_path;
                 extra_kwargs := kwargs; no_validate := no_validate |} in
  _ ← validate_file_path self;
  if negb (truthy no_validate)
  then _ ← validate_required_fields self; Ok self
  else Ok self.

(** [self.extra_kwargs.get(key)] *)
Definition kwarg (self : reader) (key : string) : pyval :=
  default VNone (extra_kwargs self !! key).

(** The bodies of [read] and the class each is in.  An engine is
    represented by its connection url, and a failure to create it is part
    of the result of [read_sql_table].  Printing ([JsonReader.read]) is
    left out. *)
Inductive read_body :=
| read_base | read_remote | read_csv | read_json | read_pickle
| read_html | read_xml | read_sqlite.

Definition own_read (cls : reader_class) : option read_body :=
  match cls with
  | BaseReader => Some read_base
  | BaseRemoteDatabaseReader => Some read_remote
  | CsvReader => Some read_csv
  | JsonReader => Some read_json
  | PickleReader => Some read_pickle
  | HtmlReader => Some read_html
  | XmlReader => Some read_xml
  | SqliteReader => Some read_sqlite
  | _ => None
  end.

Definition run_read (pd : Pandas.api) (self : reader) (body : read_body) : result pyobj :=
  match body with
  | read_base => Raise (TypeError NotCallable)
  | read_remote =>
      let table_name := kwarg self "table_name" in
      let hostname := kwarg self "hostname" in
      let port := kwarg self "port" in
      let user := kwarg self "user" in
      let password := kwarg self "password" in
      let schema := kwarg self "schema" in
      let engine :=
        Py.str (from_option VStr VNone (allowed_extension (class_of self)))
        +:+ "://" +:+ Py.str user +:+ ":" +:+ Py.str password +:+ "@"
        +:+ Py.str hostname +:+ ":" +:+ Py.str port +:+ "/" +:+ Py.str schema in
      dataframe ← Pandas.read_sql_table pd table_name engine;
      let _ := Pandas.select_dtypes_number dataframe in
      Ok (ODataFrame dataframe)
  | read_csv =>
      dataframe ← Pandas.read_csv pd (file_path self);
      let _ := Pandas.select_dtypes_number dataframe in
      Ok (ODataFrame dataframe)
  | read_json =>
      dataframe ← Pandas.read_json pd (file_path self);
      let _ := Pandas.select_dtypes_number dataframe in
      Ok (ODataFrame dataframe)
  | read_pickle =>
      dataframe ← Pandas.read_pickle pd (file_path self);
      let _ := Pandas.select_dtypes_number dataframe in
      Ok (ODataFrame dataframe)
  | read_html =>
      dataframe ← Pandas.read_html pd (file_path self);
      Ok (OList dataframe)
  | read_xml =>
      dataframe ← Pandas.read_xml pd (file_path self);
      let _ := Pandas.select_dtypes_number dataframe in
      Ok ONone
  | read_sqlite =>
      let table_name := kwarg self "table_name" in
      let engine := "sqlite:///" +:+ file_path self in
      dataframe ← Pandas.read_sql_table pd table_name engine;
      let _ := Pandas.select_dtypes_number dataframe in
      Ok (ODataFrame dataframe)
  end.

(** [self.read()], dispatched on the class of [self]. *)
Definition read (pd : Pandas.api) (self : reader) : result pyobj :=
  match getattr own_read (class_of self) with
  | Some body => run_read pd self body
  | None => Raise (TypeError NotCallable)
  end.

(** [verbose_name], declared by [BaseReader] and by every concrete class. *)
Definition own_verbose_name (cls : reader_class) : option string :=
  match cls with
  | BaseReader => Some "BaseReader"
  | CsvReader => Some "CSV"
  | JsonReader => Some "JSON"
  | PickleReader => Some "Pickle"
  | HtmlReader => Some "HTML"
  | XmlReader => Some "XML"
  | SqliteReader => Some "SQLite"
  | MySQLReader => Some "MySQL"
  | PostgreSQlReader => Some "PostgreSQL"
  | MariaDBReader => Some "MariaDB"
  | _ => None
  end.

Definition verbose_name (cls : reader_class) : string :=
  default "" (getattr own_verbose_name cls).

(** [cls.__name__] *)
Definition class_name (cls : reader_class) : string :=
  match cls with
  | BaseReader => "BaseReader"
  | BaseRemoteDatabaseReader => "BaseRemoteDatabaseReader"
  | BaseFileReader => "BaseFileReader"
  | CsvReader => "CsvReader"
  | JsonReader => "JsonReader"
  | PickleReader => "PickleReader"
  | HtmlReader => "HtmlReader"
  | XmlReader => "XmlReader"
  | SqliteReader => "SqliteReader"
  | MySQLReader => "MySQLReader"
  | PostgreSQlReader => "PostgreSQlReader"
  | MariaDBReader => "MariaDBReader"
  end.

(** The two bodies of [__str__] and the class each is in; [BaseReader]
    itself has none and falls back on the default of [object]. *)
Inductive str_body := str_remote | str_file.

Definition own_str (cls : reader_class) : option str_body :=
  match cls with
  | BaseRemoteDatabaseReader => Some str_remote
  | BaseFileReader => Some str_file
  | _ => None
  end.

(** [str(self)].  The default of [object] prints a memory address, which
    is left out here. *)
Definition __str__ (self : reader) : string :=
  match getattr own_str (class_of self) with
  | Some str_remote =>
      let hostname := default (VStr "???") (extra_kwargs self !! "hostname") in
      let table_name := default (VStr "???") (extra_kwargs self !! "table_name") in
      verbose_name (class_of self) +:+ " | " +:+ Py.str hostname +:+ "/"
      +:+ Py.str table_name
  | Some str_file => verbose_name (class_of self) +:+ " | " +:+ file_path self
  | None => "<" +:+ class_name (class_of self) +:+ " object>"
  end.

End Reader.

(** ** The charting library (matplotlib), as far as the program uses it *)

Module Pyplot.

(** What [file[key]] can hand to [ax.plot]. *)
Inductive plot_arg :=
| ASeries (s : Pandas.Series)
| AFrame (df : Pandas.DataFrame).

(** The figure records the two arguments of [ax.plot], in call order. *)
Record Figure := { plot_x : plot_arg; plot_y : plot_arg }.

End Pyplot.

(** ** [FileManager] ([files.py], lines 224-330) *)

Module FileManager.
Import Reader.

(** The class attributes. *)
Record static := {
  _extension_readers : gmap string reader_class;
  _database_readers : gmap string reader_class;
  allowed_extensions : list string;
  required_fields : gmap string pytype;
  required_fields_verbose_names : gmap string string
}.

(** [{cls.allowed_extension: cls for cls in classes}]: a later class
    replaces an earlier one with the same key.  Every direct subclass in
    the module declares a string; a class without one is left out here. *)
Definition by_extension (classes : list reader_class) : gmap string reader_class :=
  foldl (λ d cls, match allowed_extension cls with
                  | Some ext => <[ext := cls]> d
                  | None => d
                  end) ∅ classes.

(** [list(d.keys())] *)
Definition keys {V} (d : gmap string V) : list string := (map_to_list d).*1.

(** The class body, given the two registries. *)
Definition class_body (extension_readers database_readers : gmap string reader_class)
    : static :=
  {| _extension_readers := extension_readers;
     _database_readers := database_readers;
     allowed_extensions := keys extension_readers;
     required_fields := <["plot_verbose" := Tstr]> (<["plot_value" := Tstr]> ∅);
     required_fields_verbose_names :=
       <["plot_verbose" := "Поле обозначения координат"]>
         (<["plot_value" := "Поле координат"]> ∅) |}.

(** The class as the module declares it. *)
Definition FileManager : static :=
  class_body (by_extension (subclasses BaseFileReader))
             (by_extension (subclasses BaseRemoteDatabaseReader)).

(** The instance attributes. *)
Record instance := {
  __extra_kwargs : gmap string pyval;
  __current_file_path : option string
}.

(** [FileManager()] *)
Definition init : instance :=
  {| __extra_kwargs := ∅; __current_file_path := None |}.

Definition fields (self : instance) : gmap string pyval := __extra_kwargs self.

(** [d.copy()] and [d.update(other)] on dictionaries as values. *)
Definition copy {V} (d : gmap string V) : gmap string V := d.
Definition update {V} (d other : gmap string V) : gmap string V := other ∪ d.

(** [file_path.split('.')[-1]] *)
Definition extension_of (file_path : string) : string :=
  List.last (split "." file_path) "".

Section methods.
Variable cls : static.

Definition _validate_file (file_path : string) : result string :=
  if bool_decide (is_Some (_database_readers cls !! file_path)) then Ok file_path
  else
    _ ← py_assert (contains "." file_path) NoDotInPath;
    let extension := extension_of file_path in
    _ ← py_assert (bool_decide (extension ∈ allowed_extensions cls)) ExtensionNotAllowed;
    _ ← py_assert (bool_decide (is_Some (_extension_readers cls !! extension)))
          ExtensionNotSupported;
    Ok extension.

Definition _get_file_reader_class (extension : string) : result reader_class :=
  let reader_class :=
    match _extension_readers cls !! extension with
    | Some c => Some c
    | None => _database_readers cls !! extension
    end in
  match reader_class with
  | Some c => Ok c
  | None => Raise (AssertionError ReaderClassNotFound)
  end.

(** Source resolution: the two steps every entry point performs. *)
Definition resolve (file_path : string) : result reader_class :=
  extension ← _validate_file file_path;
  _get_file_reader_class extension.

Definition get_required_fields (self : instance) (file_path : string)
    : instance * result (gmap string pytype * gmap string string) :=
  let self := {| __extra_kwargs := __extra_kwargs self;
                 __current_file_path := Some file_path |} in
  (self,
   extension ← _validate_file file_path;
   reader_class ← _get_file_reader_class extension;
   let required_fields' := copy (Reader.required_fields reader_class) in
   let required_fields' := update required_fields' (required_fields cls) in
   let required_fields_verbose_names' :=
     copy (Reader.required_fields_verbose_names reader_class) in
   let required_fields_verbose_names' :=
     update required_fields_verbose_names' (required_fields_verbose_names cls) in
   Ok (required_fields', required_fields_verbose_names')).

(** With no identifier recorded the argument is [None], which is stored
    again and on which ['.' in file_path] raises. *)
Definition _validate_required_fields (self : instance) : instance * result unit :=
  match __current_file_path self with
  | None => (self, Raise (TypeError NotIterable))
  | Some file_path =>
      let '(self, r) := get_required_fields self file_path in
      (self, schema ← r; Files.validate_required_fields schema.1 (fields self))
  end.

(** The setter of the [fields] property. *)
Definition set_fields (self : instance) (value : gmap string pyval)
    : instance * result unit :=
  let self := {| __extra_kwargs := copy value;
                 __current_file_path := __current_file_path self |} in
  _validate_required_fields self.

(** How [__init__(self, file_path, no_validate=False, **kwargs)] binds
    the call [reader_class(file_path, *args, **kwargs)]. *)
Definition bind_arguments (args : list pyval) (kwargs : gmap string pyval)
    : result (pyval * gmap string pyval) :=
  if bool_decide (is_Some (kwargs !! "self") ∨ is_Some (kwargs !! "file_path"))
  then Raise (TypeError BadArguments)
  else match args with
       | [] => Ok (default (VBool false) (kwargs !! "no_validate"),
                   delete "no_validate" kwargs)
       | [no_validate] =>
           if bool_decide (is_Some (kwargs !! "no_validate"))
           then Raise (TypeError BadArguments)
           else Ok (no_validate, kwargs)
       | _ => Raise (TypeError BadArguments)
       end.

(** How a method [f(self, file_path, *args, **kwargs)] binds a call
    [f(file_path, *args, **kwargs)]: a keyword that names one of the two
    bound parameters is refused before the body runs. *)
Definition bind_call (kwargs : gmap string pyval) : result unit :=
  if bool_decide (is_Some (kwargs !! "self") ∨ is_Some (kwargs !! "file_path"))
  then Raise (TypeError BadArguments)
  else Ok tt.

Definition _open_file (pd : Pandas.api) (file_path : string) (args : list pyval)
    (kwargs : gmap string pyval) : result pyobj :=
  _ ← bind_call kwargs;
  extension ← _validate_file file_path;
  reader_class ← _get_file_reader_class extension;
  bound ← bind_arguments args kwargs;
  reader ← Reader.init reader_class file_path bound.1 bound.2;
  Reader.read pd reader.

(** [file[key]] *)
Definition subscript (file : pyobj) (key : pyval) : result Pyplot.plot_arg :=
  match file with
  | ODataFrame df => column ← Pandas.getitem df key; Ok (Pyplot.ASeries column)
  | OList dfs =>
      let at_index (i : Z) :=
        let n := Z.of_nat (length dfs) in
        let j := if (i <? 0)%Z then (i + n)%Z else i in
        if ((0 <=? j) && (j <? n))%Z
        then match dfs !! Z.to_nat j with
             | Some df => Ok (Pyplot.AFrame df)
             | None => Raise IndexError
             end
        else Raise IndexError in
      match key with
      | VInt i => at_index i
      | VBool b => at_index (if b then 1 else 0)%Z
      | _ => Raise (TypeError ListIndexNotInteger)
      end
  | ONone => Raise (TypeError NotSubscriptable)
  end.

(** [kwargs.pop(key)] *)
Definition pop (kwargs : gmap string pyval) (key : string)
    : result (pyval * gmap string pyval) :=
  match kwargs !! key with
  | Some v => Ok (v, delete key kwargs)
  | None => Raise (KeyError (VStr key))
  end.

Definition generate_chart (pd : Pandas.api) (self : instance) (file_path : string)
    (args : list pyval) (kwargs : gmap string pyval)
    : instance * result Pyplot.Figure :=
  match bind_call kwargs with
  | Raise e => (self, Raise e)
  | Ok _ =>
      match pop kwargs "plot_verbose" with
      | Raise e => (self, Raise e)
      | Ok (plot_verbose, kwargs) =>
          match pop kwargs "plot_value" with
          | Raise e => (self, Raise e)
          | Ok (plot_value, kwargs) =>
              match _open_file pd file_path args kwargs with
              | Raise e => (self, Raise e)
              | Ok file =>
                  let self := {| __extra_kwargs := __extra_kwargs self;
                                 __current_file_path := None |} in
                  (self,
                   x ← subscript file plot_verbose;
                   y ← subscript file plot_value;
                   Ok {| Pyplot.plot_x := x; Pyplot.plot_y := y |})
              end
          end
      end
  end.

(** [file_name(file_path, data)]: the call
    [reader_class(file_path=file_path, no_validate=True, **data)] needs
    [data] to be a mapping that repeats none of the named arguments. *)
Definition file_name (file_path : string) (data : option (gmap string pyval))
    : result string :=
  extension ← _validate_file file_path;
  reader_class ← _get_file_reader_class extension;
  match data with
  | None => Raise (TypeError BadArguments)
  | Some data =>
      if bool_decide (is_Some (data !! "self") ∨ is_Some (data !! "file_path")
                      ∨ is_Some (data !! "no_validate"))
      then Raise (TypeError BadArguments)
      else
        reader_instance ← Reader.init reader_class file_path (VBool true) data;
        let reader_str := Reader.__str__ reader_instance in
        Ok reader_str
  end.

End methods.

End FileManager.

(** ** The chart history ([database.py]) *)

Module Database.

(** JSON documents as the [extra_data] column holds them: [null] or an
    object whose members are scalars. *)
Inductive json_atom := ANull | ABool (b : bool) | ANumber (z : Z) | AString (s : string).
Inductive json := JNull | JObject (members : gmap string json_atom).

Definition dump_atom (v : pyval) : json_atom :=
  match v with
  | VNone => ANull
  | VBool b => ABool b
  | VInt z => ANumber z
  | VStr s => AString s
  end.

Definition load_atom (a : json_atom) : pyval :=
  match a with
  | ANull => VNone
  | ABool b => VBool b
  | ANumber z => VInt z
  | AString s => VStr s
  end.

(** [json.dumps] and [json.loads] on [None] or a dictionary of scalars. *)
Definition dumps (v : option (gmap string pyval)) : json :=
  match v with
  | None => JNull
  | Some d => JObject (dump_atom <$> d)
  end.

Definition loads (j : json) : option (gmap string pyval) :=
  match j with
  | JNull => None
  | JObject members => Some (load_atom <$> members)
  end.

(** The ids the store can hold and bind: 64-bit signed integers. *)
Definition int64_min : Z := - 2 ^ 63.
Definition int64_max : Z := 2 ^ 63 - 1.
Definition in_int64 (z : Z) : bool := ((int64_min <=? z) && (z <=? int64_max))%Z.

(** The columns of a row of [chart_history] beside its id; [None] in
    [row_extra_data] is SQL NULL. *)
Record row := { row_file_name : string; row_extra_data : option json }.

(** The committed table is a finite map from id, the primary key, to the
    rest of the row.  A table the store can hold has its ids in range. *)
Definition well_formed (table : gmap Z row) : Prop :=
  ∀ i, is_Some (table !! i) → in_int64 i = true.

(** A loaded [ChartHistory] object. *)
Record ChartHistory := {
  id : Z;
  file_name : string;
  extra_data : option (gmap string pyval)
}.

(** The keyword arguments of [create]; [None] is an argument left out.
    [v_extra_data = Some None] is [extra_data=None]. *)
Record values := {
  v_id : option Z;
  v_file_name : option string;
  v_extra_data : option (option (gmap string pyval))
}.

Definition largest (ids : list Z) : option Z :=
  foldr (λ i m, Some (from_option (Z.max i) i m)) None ids.

Definition largest_id (table : gmap Z row) : option Z :=
  largest (elements (dom table)).

(** The id the store gives a row inserted without one: 1 in an empty
    table, else one above the largest id in use; when that is the largest
    id there is, the store draws positive ids at random until one is
    unused.  [draw] is the outcome of that search: the id found, or [None]
    when the store gives up; an outcome the search cannot have (an id in
    use or not positive) counts as giving up. *)
Definition assign_id (table : gmap Z row) (draw : option Z) : result Z :=
  match largest_id table with
  | None => Ok 1%Z
  | Some m =>
      if (m <? int64_max)%Z then Ok (m + 1)%Z
      else match draw with
           | Some i =>
               if ((1 <=? i) && (i <=? int64_max))%Z
                  && negb (bool_decide (is_Some (table !! i)))
               then Ok i
               else Raise (ExternalError "database or disk is full")
           | None => Raise (ExternalError "database or disk is full")
           end
  end.

Definition load (i : Z) (r : row) : ChartHistory :=
  {| id := i; file_name := row_file_name r;
     extra_data := r' ← row_extra_data r; loads r' |}.

(** [ChartHistory.create], called with keyword arguments: the committed
    table, or the failure.  An id outside the 64-bit range cannot be bound;
    [file_name] is NOT NULL and [id] is the primary key. *)
Definition create (table : gmap Z row) (kwargs : values) (draw : option Z)
    : result (gmap Z row) :=
  new_id ← match v_id kwargs with
           | Some i => if in_int64 i then Ok i else Raise OverflowError
           | None => assign_id table draw
           end;
  match v_file_name kwargs with
  | None => Raise IntegrityError
  | Some name =>
      if bool_decide (is_Some (table !! new_id)) then Raise IntegrityError
      else Ok (<[new_id := {| row_file_name := name;
                              row_extra_data := dumps <$> v_extra_data kwargs |}]>
                 table)
  end.

(** [ChartHistory.get_chart(chart_id)]; an id outside the 64-bit range
    cannot be bound to the query. *)
Definition get_chart (table : gmap Z row) (chart_id : Z)
    : result (option ChartHistory) :=
  if in_int64 chart_id then Ok (load chart_id <$> table !! chart_id)
  else Raise OverflowError.

(** [ChartHistory.get_all_charts()]: the records in the order of the
    primary key, in which the store scans the table. *)
Definition get_all_charts (table : gmap Z row) : list ChartHistory :=
  omap (λ i, load i <$> table !! i) (merge_sort Z.le (elements (dom table))).

End Database.

(** ** Conditions as the specification words them *)

Module Stated.

(** The condition under which validation is said to succeed: the schema
    is empty, or every key of the schema is provided with a truthy value
    of exactly the declared type. *)
Definition meets_schema (required : gmap string pytype)
    (provided : gmap string pyval) : Prop :=
  required = ∅
  ∨ ∀ k t, required !! k = Some t →
           ∃ v, provided !! k = Some v ∧ truthy v = true ∧ type_of v = t.

End Stated.

(** ** Sample inputs *)

Module Sample.
Import Reader FileManager.

(** A subclass of [FileManager] overriding [allowed_extensions] with a
    suffix no reader is registered for. *)
Definition TextFileManager : static :=
  {| _extension_readers := _extension_readers FileManager;
     _database_readers := _database_readers FileManager;
     allowed_extensions := "txt" :: allowed_extensions FileManager;
     required_fields := required_fields FileManager;
     required_fields_verbose_names := required_fields_verbose_names FileManager |}.

(** A class body run with one more remote reader, whose tag has a dot. *)
Definition DottedFileManager : static :=
  class_body (_extension_readers FileManager)
             (<["mysql.v8" := MySQLReader]> (_database_readers FileManager)).

(** A table with a text column and a numeric column. *)
Definition city : Pandas.Series :=
  {| Pandas.name := "city"; Pandas.dtype_of := Pandas.object_;
     Pandas.values := [VStr "Oslo"; VStr "Rome"] |}.
Definition sales : Pandas.Series :=
  {| Pandas.name := "sales"; Pandas.dtype_of := Pandas.int64;
     Pandas.values := [VInt 3; VInt 5] |}.
Definition sales_table : Pandas.DataFrame := [city; sales].

(** An outside world in which every source decodes to that table. *)
Definition disk : Pandas.api :=
  {| Pandas.read_csv := λ _, Ok sales_table;
     Pandas.read_json := λ _, Ok sales_table;
     Pandas.read_pickle := λ _, Ok sales_table;
     Pandas.read_html := λ _, Ok [sales_table];
     Pandas.read_xml := λ _, Ok sales_table;
     Pandas.read_sql_table := λ _ _, Ok sales_table |}.

(** One source per reader that is meant to keep numeric columns only,
    each with the parameters its schema asks for. *)
Definition table_only : gmap string pyval := <["table_name" := VStr "orders"]> ∅.
Definition connection : gmap string pyval :=
  <["table_name" := VStr "orders"]> (<["hostname" := VStr "localhost"]>
    (<["port" := VStr "3306"]> (<["user" := VStr "app"]>
    (<["password" := VStr "secret"]> (<["schema" := VStr "shop"]> ∅))))).
Definition sources : list (string * gmap string pyval) :=
  [ ("data.csv", ∅); ("data.json", ∅); ("data.pickle", ∅); ("shop.db", table_only);
    ("mysql+pymysql", connection); ("postgresql+psycopg2", connection);
    ("mariadb+pymysql", connection) ].

(** A chart history holding one record. *)
Definition history : gmap Z Database.row :=
  {[ 7%Z := {| Database.row_file_name := "a.csv";
               Database.row_extra_data := None |} ]}.

Definition axes (x y : string) : gmap string pyval :=
  <["plot_verbose" := VStr x]> (<["plot_value" := VStr y]> ∅).

(** The schema of the SQLite reader, and parameters that satisfy it and
    name one more parameter. *)
Definition sqlite_schema : gmap string pytype := Reader.required_fields SqliteReader.
Definition sqlite_parameters : gmap string pyval :=
  <["table_name" := VStr "sales"]> (<["sheet" := VStr "first"]> ∅).

End Sample.

(** * Properties *)

Import Reader FileManager.

(** ** Source resolution *)

Lemma elem_of_keys {V} (d : gmap string V) (k : string) :
  k ∈ keys d ↔ is_Some (d !! k).
Proof.
  unfold keys. rewrite list_elem_of_fmap. split.
  - intros [[k' v] [-> H]]. apply elem_of_map_to_list in H. eauto.
  - intros [v H]. exists (k, v). split; [done|]. by apply elem_of_map_to_list.
Qed.

(** The two registries the class body builds from the subclass lists. *)
Lemma extension_readers_declared :
  _extension_readers FileManager =
  <["csv" := CsvReader]> (<["json" := JsonReader]> (<["pickle" := PickleReader]>
    (<["html" := HtmlReader]> (<["xml" := XmlReader]> (<["db" := SqliteReader]> ∅))))).
Proof. apply (bool_decide_eq_true_1 (_ = _)). vm_compute. reflexivity. Qed.

Lemma database_readers_declared :
  _database_readers FileManager =
  <["mysql+pymysql" := MySQLReader]> (<["postgresql+psycopg2" := PostgreSQlReader]>
    (<["mariadb+pymysql" := MariaDBReader]> ∅)).
Proof. apply (bool_decide_eq_true_1 (_ = _)). vm_compute. reflexivity. Qed.

(** Case analysis on a lookup in a registry written as a chain of inserts. *)
Ltac registry_cases H :=
  repeat (apply lookup_insert_Some in H; destruct H as [[<- <-] | [_ H]]);
  try (by rewrite lookup_empty in H).

Lemma dialect_tag_has_no_dot d c :
  _database_readers FileManager !! d = Some c → contains "." d = false.
Proof.
  rewrite database_readers_declared. intros H. registry_cases H; reflexivity.
Qed.

Lemma dialect_tag_is_no_suffix d c :
  _database_readers FileManager !! d = Some c →
  _extension_readers FileManager !! d = None ∧ is_remote c = true.
Proof.
  rewrite database_readers_declared. intros H.
  registry_cases H; split; reflexivity.
Qed.

Section any_class.
Variable K : static.

(** [_validate_file] as a decision tree. *)
Lemma validate_file_unfold p :
  _validate_file K p =
  if bool_decide (is_Some (_database_readers K !! p)) then Ok p
  else if contains "." p
  then if bool_decide (extension_of p ∈ allowed_extensions K)
       then if bool_decide (is_Some (_extension_readers K !! extension_of p))
            then Ok (extension_of p)
            else Raise UnsupportedExtensionError
       else Raise UnknownExtensionError
  else Raise (AssertionError NoDotInPath).
Proof.
  unfold _validate_file. 
  destruct (bool_decide (is_Some (_database_readers K !! p))); [done|].
  destruct (contains "." p); [|done].
  destruct (bool_decide (extension_of p ∈ allowed_extensions K)); [|done].
  by destruct (bool_decide (is_Some (_extension_readers K !! extension_of p))).
Qed.

Lemma validate_file_dialect p :
  is_Some (_database_readers K !! p) → _validate_file K p = Ok p.
Proof. intros H. rewrite validate_file_unfold. by rewrite bool_decide_eq_true_2. Qed.

Lemma validate_file_no_dot p :
  _database_readers K !! p = None → contains "." p = false →
  _validate_file K p = Raise (AssertionError NoDotInPath).
Proof.
  intros Hdb Hdot. rewrite validate_file_unfold, Hdot.
  by rewrite bool_decide_eq_false_2 by (rewrite Hdb; by intros [? ?]).
Qed.

Lemma validate_file_not_allowed p :
  _database_readers K !! p = None → contains "." p = true →
  extension_of p ∉ allowed_extensions K →
  _validate_file K p = Raise UnknownExtensionError.
Proof.
  intros Hdb Hdot Hno. rewrite validate_file_unfold, Hdot.
  rewrite bool_decide_eq_false_2 by (rewrite Hdb; by intros [? ?]).
  by rewrite bool_decide_eq_false_2.
Qed.

Lemma validate_file_not_supported p :
  _database_readers K !! p = None → contains "." p = true →
  extension_of p ∈ allowed_extensions K → _extension_readers K !! extension_of p = None →
  _validate_file K p = Raise UnsupportedExtensionError.
Proof.
  intros Hdb Hdot Hin Hno. rewrite validate_file_unfold, Hdot.
  rewrite bool_decide_eq_false_2 by (rewrite Hdb; by intros [? ?]).
  rewrite bool_decide_eq_true_2 by done.
  by rewrite bool_decide_eq_false_2 by (rewrite Hno; by intros [? ?]).
Qed.

Lemma validate_file_suffix p :
  _database_readers K !! p = None → contains "." p = true →
  extension_of p ∈ allowed_extensions K → is_Some (_extension_readers K !! extension_of p) →
  _validate_file K p = Ok (extension_of p).
Proof.
  intros Hdb Hdot Hin Hsome. rewrite validate_file_unfold, Hdot.
  rewrite bool_decide_eq_false_2 by (rewrite Hdb; by intros [? ?]).
  rewrite bool_decide_eq_true_2 by done.
  by rewrite bool_decide_eq_true_2.
Qed.

Lemma get_file_reader_class_suffix e c :
  _extension_readers K !! e = Some c → _get_file_reader_class K e = Ok c.
Proof. intros H. unfold _get_file_reader_class. by rewrite H. Qed.

Lemma get_file_reader_class_dialect e c :
  _extension_readers K !! e = None → _database_readers K !! e = Some c →
  _get_file_reader_class K e = Ok c.
Proof. intros H1 H2. unfold _get_file_reader_class. by rewrite H1, H2. Qed.

(** A resolved class is registered in one of the two registries. *)
Lemma resolve_registered p c :
  resolve K p = Ok c →
  ∃ e, _validate_file K p = Ok e ∧
       (_extension_readers K !! e = Some c
        ∨ (_extension_readers K !! e = None ∧ _database_readers K !! e = Some c)).
Proof.
  unfold resolve. destruct (_validate_file K p) as [e|err]; [|done]. cbn.
  unfold _get_file_reader_class.
  destruct (_extension_readers K !! e) as [c'|] eqn:He.
  - intros [= <-]. eauto.
  - destruct (_database_readers K !! e) as [c'|] eqn:Hd; [|done].
    intros [= <-]. eauto.
Qed.

End any_class.

(** The suffix of ["x." + s] is [s] when [s] has no dot of its own. *)
Lemma split_no_dot s : contains "." s = false → split "." s = [s].
Proof.
  induction s as [|c s IH]; [done|]. cbn.
  destruct (Ascii.eqb c ".") eqn:Hc; [done|]. cbn. intros H. by rewrite IH.
Qed.

Lemma suffix_of_x_dot s :
  contains "." s = false → extension_of ("x." +:+ s) = s.
Proof.
  intros H. unfold extension_of. change (split "." ("x." +:+ s)) with ("x" :: split "." s).
  by rewrite split_no_dot.
Qed.

(** Any stem will do in place of ["x"]. *)
Lemma split_nonempty s : split "." s ≠ [].
Proof.
  destruct s as [|c s]; [done|]. cbn. destruct (Ascii.eqb c "."); [done|].
  by destruct (split "." s).
Qed.

Lemma split_stem stem s :
  split "." (stem +:+ "." +:+ s) = (split "." stem ++ split "." s)%list.
Proof.
  induction stem as [|c stem IH]; [done|].
  change (String c stem +:+ "." +:+ s) with (String c (stem +:+ "." +:+ s)).
  cbn [split]. rewrite IH. destruct (Ascii.eqb c "."); [done|].
  pose proof (split_nonempty stem) as Hne. by destruct (split "." stem).
Qed.

Lemma extension_of_stem stem s :
  contains "." s = false → extension_of (stem +:+ "." +:+ s) = s.
Proof.
  intros H. unfold extension_of. rewrite split_stem, (split_no_dot s H).
  apply List.last_last.
Qed.

Lemma resolve_any_stem stem s c :
  _extension_readers FileManager !! s = Some c →
  resolve FileManager (stem +:+ "." +:+ s) = Ok c.
Proof.
  intros H.
  assert (contains "." s = false) as Hs.
  { revert H. rewrite extension_readers_declared. intros H.
    registry_cases H; reflexivity. }
  assert (contains "." (stem +:+ "." +:+ s) = true) as Hdot.
  { clear. induction stem as [|a stem IH]; [done|].
    change (String a stem +:+ "." +:+ s) with (String a (stem +:+ "." +:+ s)).
    cbn [contains]. rewrite IH. by destruct (Ascii.eqb a "."). }
  unfold resolve. rewrite validate_file_suffix.
  - rewrite (extension_of_stem _ _ Hs). cbn. by apply get_file_reader_class_suffix.
  - destruct (_database_readers FileManager !! _) as [c'|] eqn:Hdb; [|done].
    apply dialect_tag_has_no_dot in Hdb. congruence.
  - done.
  - rewrite (extension_of_stem _ _ Hs). cbn. apply elem_of_keys. eauto.
  - rewrite (extension_of_stem _ _ Hs). eauto.
Qed.

(** C4. In the class as declared, a path ["x." + s] with [s] a registered
    suffix resolves to the reader registered for [s], and a path whose
    trailing suffix is not in [allowed_extensions] fails with
    [UnknownExtensionError].  In any class, a path whose suffix is allowed
    but has no registered reader fails with [UnsupportedExtensionError]. *)
Theorem resolve_local_file :
  (∀ s c, _extension_readers FileManager !! s = Some c →
          resolve FileManager ("x." +:+ s) = Ok c)
  ∧ (∀ p, contains "." p = true →
          extension_of p ∉ allowed_extensions FileManager →
          resolve FileManager p = Raise UnknownExtensionError)
  ∧ (∀ K p, _database_readers K !! p = None → contains "." p = true →
            extension_of p ∈ allowed_extensions K →
            _extension_readers K !! extension_of p = None →
            resolve K p = Raise UnsupportedExtensionError).
Proof.
  split; [|split].
  - intros s c H. rewrite extension_readers_declared in H.
    registry_cases H; by vm_compute.
  - intros p Hdot Hno. unfold resolve.
    rewrite validate_file_not_allowed; [done| |done|done].
    destruct (_database_readers FileManager !! p) as [c|] eqn:Hdb; [|done].
    apply dialect_tag_has_no_dot in Hdb. congruence.
  - intros K p Hdb Hdot Hin Hno. unfold resolve.
    by rewrite validate_file_not_supported.
Qed.

Lemma resolve_local_file_witness :
  resolve FileManager "x.csv" = Ok CsvReader
  ∧ resolve FileManager "report.txt" = Raise UnknownExtensionError
  ∧ resolve Sample.TextFileManager "report.txt" = Raise UnsupportedExtensionError.
Proof.
  destruct resolve_local_file as (H1 & H2 & H3). split; [|split].
  - apply (H1 "csv"). by vm_compute.
  - apply H2; [reflexivity|]. apply (bool_decide_eq_true_1 (_ ∉ _)). by vm_compute.
  - apply H3; [by vm_compute|reflexivity| |by vm_compute].
    apply (bool_decide_eq_true_1 (_ ∈ _)). by vm_compute.
Defined.

(** C5. In the class as declared, a registered dialect tag resolves to the
    remote reader registered for it.  In any class the dialect check comes
    first: a registered tag that is no registered suffix resolves to its
    reader whether or not it contains a dot. *)
Theorem resolve_dialect :
  (∀ d c, _database_readers FileManager !! d = Some c →
          resolve FileManager d = Ok c ∧ is_remote c = true)
  ∧ (∀ K d c, _database_readers K !! d = Some c →
              _extension_readers K !! d = None →
              resolve K d = Ok c).
Proof.
  assert (∀ K d c, _database_readers K !! d = Some c →
                   _extension_readers K !! d = None → resolve K d = Ok c) as Hany.
  { intros K d c Hdb Hext. unfold resolve.
    rewrite validate_file_dialect by eauto. cbn.
    by apply get_file_reader_class_dialect. }
  split; [|exact Hany].
  intros d c H. destruct (dialect_tag_is_no_suffix d c H) as [Hext Hrem].
  split; [by apply Hany|done].
Qed.

Lemma resolve_dialect_witness :
  (resolve FileManager "postgresql+psycopg2" = Ok PostgreSQlReader
   ∧ is_remote PostgreSQlReader = true)
  ∧ contains "." "mysql.v8" = true
  ∧ resolve Sample.DottedFileManager "mysql.v8" = Ok MySQLReader.
Proof.
  destruct resolve_dialect as (H1 & H2). split; [|split].
  - apply H1. by vm_compute.
  - reflexivity.
  - apply H2; by vm_compute.
Defined.

(** C10. Whatever the two registries are, the class body sets
    [allowed_extensions] to the keys of [_extension_readers]; so a suffix
    that passes the allow-list check has a registered reader, and neither
    [_validate_file] nor resolution ever fails with
    [UnsupportedExtensionError]. *)
Theorem unsupported_extension_unreachable
    (extension_readers database_readers : gmap string reader_class) (p : string) :
  let K := class_body extension_readers database_readers in
  (extension_of p ∈ allowed_extensions K →
   is_Some (_extension_readers K !! extension_of p))
  ∧ _validate_file K p ≠ Raise UnsupportedExtensionError
  ∧ resolve K p ≠ Raise UnsupportedExtensionError.
Proof.
  intros K.
  assert (extension_of p ∈ allowed_extensions K →
          is_Some (_extension_readers K !! extension_of p)) as Hkeys.
  { subst K. cbn. by rewrite elem_of_keys. }
  assert (_validate_file K p ≠ Raise UnsupportedExtensionError) as Hval.
  { rewrite validate_file_unfold.
    case_bool_decide; [done|]. destruct (contains "." p); [|done].
    case_bool_decide as Hin; [|done].
    rewrite bool_decide_eq_true_2 by auto. done. }
  split; [done|]. split; [done|].
  unfold resolve. destruct (_validate_file K p) as [e|err] eqn:Hv; cbn.
  - unfold _get_file_reader_class.
    destruct (_extension_readers K !! e); [done|].
    by destruct (_database_readers K !! e).
  - congruence.
Qed.

Lemma unsupported_extension_unreachable_witness :
  is_Some (_extension_readers FileManager !! "csv")
  ∧ resolve FileManager "report.txt" ≠ Raise UnsupportedExtensionError.
Proof.
  destruct (unsupported_extension_unreachable
              (by_extension (subclasses BaseFileReader))
              (by_extension (subclasses BaseRemoteDatabaseReader))
              "data.csv") as (H1 & _ & _).
  destruct (unsupported_extension_unreachable
              (by_extension (subclasses BaseFileReader))
              (by_extension (subclasses BaseRemoteDatabaseReader))
              "report.txt") as (_ & _ & H3).
  split; [|exact H3].
  apply H1. apply (bool_decide_eq_true_1 (_ ∈ _)). by vm_compute.
Defined.

(** ** Parameter validation *)

Section validation.
Variables (R : gmap string pytype) (P : gmap string pyval).

Lemma check_field_ok f :
  check_field R P f = Ok tt
  ↔ ∃ v, P !! f = Some v ∧ truthy v = true ∧ R !! f = Some (type_of v).
Proof.
  unfold check_field. split.
  - destruct (P !! f) as [v|]; [|done]. destruct (R !! f) as [t|]; [|done].
    destruct (truthy v) eqn:Htr; [|done]. cbn. case_bool_decide as Ht; [done|].
    intros _. exists v. split; [done|]. split; [done|].
    f_equal. destruct (decide (type_of v = t)); [done|]. by destruct Ht.
  - intros (v & -> & -> & ->). cbn. by rewrite bool_decide_eq_false_2 by auto.
Qed.

Lemma check_fields_ok l :
  check_fields R P l = Ok tt ↔ ∀ f, f ∈ l → check_field R P f = Ok tt.
Proof.
  induction l as [|f l IH]; cbn.
  - split; [|done]. intros _ f Hf. by apply elem_of_nil in Hf.
  - destruct (check_field R P f) as [[]|e] eqn:Hf; cbn.
    + rewrite IH. split.
      * intros H g Hg. apply elem_of_cons in Hg as [->|Hg]; auto.
      * intros H g Hg. apply H. by apply elem_of_cons; right.
    + split; [done|]. intros H. specialize (H f). rewrite Hf in H.
      apply H. by apply elem_of_cons; left.
Qed.

(** When [validate_required_fields] returns, for any iteration order
    that visits exactly the provided keys. *)
Lemma validate_in_ok (order : gset string → list string) :
  (∀ X k, k ∈ order X ↔ k ∈ X) →
  validate_required_fields_in order R P = Ok tt
  ↔ R = ∅
    ∨ (dom P = dom R
       ∧ ∀ k v, P !! k = Some v → truthy v = true ∧ R !! k = Some (type_of v)).
Proof.
  intros Horder. unfold validate_required_fields_in.
  destruct (decide (R = ∅)) as [HR|HR].
  { rewrite bool_decide_eq_true_2 by done. split; auto. }
  rewrite bool_decide_eq_false_2 by done.
  destruct (decide (P = ∅)) as [HP|HP].
  { rewrite (bool_decide_eq_true_2 (P = ∅)) by done. cbn.
    split; [done|]. intros [?|[Hdom _]]; [done|]. subst P.
    rewrite dom_empty_L in Hdom. symmetry in Hdom.
    by apply dom_empty_inv_L in Hdom. }
  rewrite (bool_decide_eq_false_2 (P = ∅)) by done. cbn.
  destruct (decide (dom R ∖ dom P = ∅)) as [Hsub|Hsub].
  - rewrite bool_decide_eq_true_2 by done. cbn.
    rewrite check_fields_ok. split.
    + intros Hall. right.
      assert (∀ k v, P !! k = Some v →
                     truthy v = true ∧ R !! k = Some (type_of v)) as Hvals.
      { intros k v Hk.
        assert (k ∈ order (dom P)) as Hin by (apply Horder, elem_of_dom; eauto).
        apply Hall, check_field_ok in Hin as (v' & Hv' & ? & ?).
        rewrite Hk in Hv'. by injection Hv' as <-. }
      split; [|done]. apply set_eq. intros k. split.
      * intros [v Hk]%elem_of_dom. apply elem_of_dom.
        destruct (Hvals k v Hk) as [_ ?]. eauto.
      * intros Hk. destruct (decide (k ∈ dom P)) as [|Hno]; [done|].
        assert (k ∈ dom R ∖ dom P) as Hd by (by apply elem_of_difference).
        rewrite Hsub in Hd. by apply not_elem_of_empty in Hd.
    + intros [?|[Hdom Hvals]]; [done|]. intros f Hf.
      apply Horder, elem_of_dom in Hf as [v Hv].
      apply check_field_ok. exists v. destruct (Hvals f v Hv). auto.
  - rewrite bool_decide_eq_false_2 by done. cbn.
    split; [done|]. intros [?|[Hdom _]]; [done|].
    destruct Hsub. rewrite Hdom. apply difference_diag_L.
Qed.

Lemma validate_ok :
  Files.validate_required_fields R P = Ok tt
  ↔ R = ∅
    ∨ (dom P = dom R
       ∧ ∀ k v, P !! k = Some v → truthy v = true ∧ R !! k = Some (type_of v)).
Proof. apply validate_in_ok. intros X k. apply elem_of_elements. Qed.

(** Whether validation succeeds does not depend on the order in which
    the set of provided keys is visited. *)
Lemma validate_order_irrelevant (order1 order2 : gset string → list string) :
  (∀ X k, k ∈ order1 X ↔ k ∈ X) → (∀ X k, k ∈ order2 X ↔ k ∈ X) →
  validate_required_fields_in order1 R P = Ok tt
  ↔ validate_required_fields_in order2 R P = Ok tt.
Proof. intros H1 H2. by rewrite !validate_in_ok. Qed.

(** Success implies the stated condition. *)
Lemma validate_sound :
  Files.validate_required_fields R P = Ok tt → Stated.meets_schema R P.
Proof.
  intros [HR|[Hdom Hvals]]%validate_ok; [by left|]. right. intros k t Hk.
  assert (k ∈ dom P) as [v Hv]%elem_of_dom by (rewrite Hdom; apply elem_of_dom; eauto).
  exists v. destruct (Hvals k v Hv) as [Ht Hty]. split; [done|]. split; [done|].
  congruence.
Qed.

End validation.

(** C1. The stated condition does not suffice: parameters that satisfy the
    SQLite reader's schema and name one parameter more are rejected, the
    loop looking the extra name up in the schema. *)
Theorem validate_rejects_extra_parameter :
  Stated.meets_schema Sample.sqlite_schema Sample.sqlite_parameters
  ∧ Files.validate_required_fields Sample.sqlite_schema Sample.sqlite_parameters
    = Raise (KeyError (VStr "sheet")).
Proof.
  split; [|by vm_compute].
  right. intros k t Hk.
  assert (Sample.sqlite_schema = <["table_name" := Tstr]> ∅) as Hs
    by (apply (bool_decide_eq_true_1 (_ = _)); by vm_compute).
  rewrite Hs in Hk. apply lookup_insert_Some in Hk as [[<- <-]|[_ Hk]].
  - exists (VStr "sales"). by vm_compute.
  - by rewrite lookup_empty in Hk.
Qed.

(** ** What [read] returns *)

Section reading.
Variables (pd : Pandas.api) (self : reader).

Lemma read_csv_unfiltered df :
  class_of self = CsvReader → Pandas.read_csv pd (file_path self) = Ok df →
  Reader.read pd self = Ok (ODataFrame df).
Proof. intros Hc Hr. unfold Reader.read. rewrite Hc. cbn. by rewrite Hr. Qed.

Lemma read_json_unfiltered df :
  class_of self = JsonReader → Pandas.read_json pd (file_path self) = Ok df →
  Reader.read pd self = Ok (ODataFrame df).
Proof. intros Hc Hr. unfold Reader.read. rewrite Hc. cbn. by rewrite Hr. Qed.

Lemma read_pickle_unfiltered df :
  class_of self = PickleReader → Pandas.read_pickle pd (file_path self) = Ok df →
  Reader.read pd self = Ok (ODataFrame df).
Proof. intros Hc Hr. unfold Reader.read. rewrite Hc. cbn. by rewrite Hr. Qed.

Lemma read_sqlite_unfiltered df :
  class_of self = SqliteReader →
  Pandas.read_sql_table pd (kwarg self "table_name") ("sqlite:///" +:+ file_path self)
    = Ok df →
  Reader.read pd self = Ok (ODataFrame df).
Proof. intros Hc Hr. unfold Reader.read. rewrite Hc. cbn. by rewrite Hr. Qed.

(** The remote readers inherit [read]; whatever the table decoded from
    the connection, it is returned as decoded. *)
Lemma read_remote_unfiltered r :
  base (class_of self) = Some BaseRemoteDatabaseReader →
  Reader.read pd self = Ok r →
  ∃ url df, Pandas.read_sql_table pd (kwarg self "table_name") url = Ok df
            ∧ r = ODataFrame df.
Proof.
  intros Hc. unfold Reader.read.
  destruct (class_of self); try discriminate Hc; cbn;
    match goal with
    | |- context [Pandas.read_sql_table pd ?t ?u] =>
        destruct (Pandas.read_sql_table pd t u) as [df|e] eqn:Hr; cbn;
        [intros [= <-]; exists u, df; by rewrite Hr | done]
    end.
Qed.

Lemma read_html_list dfs :
  class_of self = HtmlReader → Pandas.read_html pd (file_path self) = Ok dfs →
  Reader.read pd self = Ok (OList dfs).
Proof. intros Hc Hr. unfold Reader.read. rewrite Hc. cbn. by rewrite Hr. Qed.

Lemma read_xml_none df :
  class_of self = XmlReader → Pandas.read_xml pd (file_path self) = Ok df →
  Reader.read pd self = Ok ONone.
Proof. intros Hc Hr. unfold Reader.read. rewrite Hc. cbn. by rewrite Hr. Qed.

End reading.

(** C2. Sources of the CSV, JSON, pickle, SQLite and remote readers that
    decode to a table with a text column: [read] returns the table with the
    text column still in it, although the numeric selection of that table
    has the numeric column only. *)
Theorem read_keeps_text_column :
  Forall (λ source, _open_file FileManager Sample.disk source.1 [] source.2
                    = Ok (ODataFrame Sample.sales_table)) Sample.sources
  ∧ Pandas.columns Sample.sales_table = ["city"; "sales"]
  ∧ Pandas.columns (Pandas.select_dtypes_number Sample.sales_table) = ["sales"].
Proof.
  split; [|split; reflexivity].
  unfold Sample.sources. repeat (apply Forall_cons; split; [by vm_compute|]).
  apply Forall_nil_2.
Qed.

(** C3. An XML source that decodes to a table: [read] returns [None], not
    the table. *)
Theorem xml_read_returns_none :
  Pandas.read_xml Sample.disk "data.xml" = Ok Sample.sales_table
  ∧ _open_file FileManager Sample.disk "data.xml" [] ∅ = Ok ONone.
Proof. split; [reflexivity|by vm_compute]. Qed.

(** C9. An HTML source holding one table: [read] returns the list of
    extracted tables, not the table, and charting it fails on the
    subscript. *)
Theorem html_read_returns_list :
  _open_file FileManager Sample.disk "page.html" [] ∅ = Ok (OList [Sample.sales_table])
  ∧ (generate_chart FileManager Sample.disk FileManager.init "page.html" []
       (Sample.axes "city" "sales")).2 = Raise (TypeError ListIndexNotInteger).
Proof. split; by vm_compute. Qed.

(** ** Required fields *)

(** C6. For an identifier that resolves to reader class [c],
    [get_required_fields] returns the schema of [c] with the two axis
    fields set to [str], and the labels of [c] with the two axis labels;
    calling it again on the resulting manager returns the same pair and
    leaves the manager as it is. *)
Theorem get_required_fields_idempotent
    (extension_readers database_readers : gmap string reader_class)
    (self : instance) (p : string) (c : reader_class) :
  let K := class_body extension_readers database_readers in
  resolve K p = Ok c →
  (get_required_fields K self p).2
  = Ok (<["plot_verbose" := Tstr]> (<["plot_value" := Tstr]> (Reader.required_fields c)),
        <["plot_verbose" := "Поле обозначения координат"]>
          (<["plot_value" := "Поле координат"]> (Reader.required_fields_verbose_names c)))
  ∧ get_required_fields K (get_required_fields K self p).1 p
    = get_required_fields K self p.
Proof.
  intros K Hres. split; [|done].
  unfold resolve in Hres. unfold get_required_fields. cbn [snd].
  destruct (_validate_file K p) as [e|err]; [|done]. cbn in Hres |- *.
  destruct (_get_file_reader_class K e) as [c'|err]; [|done]. cbn.
  injection Hres as ->.
  f_equal; f_equal; rewrite <- !insert_union_l; by rewrite (left_id_L ∅ (∪)).
Qed.

Lemma get_required_fields_idempotent_witness :
  (get_required_fields FileManager FileManager.init "shop.db").2
  = Ok (<["plot_verbose" := Tstr]> (<["plot_value" := Tstr]> (<["table_name" := Tstr]> ∅)),
        <["plot_verbose" := "Поле обозначения координат"]>
          (<["plot_value" := "Поле координат"]>
             (<["table_name" := "Название таблицы"]> ∅)))
  ∧ get_required_fields FileManager
      (get_required_fields FileManager FileManager.init "shop.db").1 "shop.db"
    = get_required_fields FileManager FileManager.init "shop.db".
Proof.
  apply (get_required_fields_idempotent
           (by_extension (subclasses BaseFileReader))
           (by_extension (subclasses BaseRemoteDatabaseReader))
           FileManager.init "shop.db" SqliteReader).
  by vm_compute.
Defined.

(** ** Charting *)



Section charting.
Variables (K : static) (pd : Pandas.api).

(** The reader behind a successful [_open_file]. *)
Lemma open_file_inv p args kwargs file :
  _open_file K pd p args kwargs = Ok file →
  ∃ c no_validate kwargs' self,
    resolve K p = Ok c
    ∧ bind_arguments args kwargs = Ok (no_validate, kwargs')
    ∧ Reader.init c p no_validate kwargs' = Ok self
    ∧ extra_kwargs self = kwargs'
    ∧ Reader.read pd self = Ok file.
Proof.
  unfold _open_file, resolve.
  destruct (bind_call kwargs) as [[]|]; [|done]. cbn.
  destruct (_validate_file K p) as [e|]; [|done]. cbn.
  destruct (_get_file_reader_class K e) as [c|]; [|done]. cbn.
  destruct (bind_arguments args kwargs) as [[nv kw]|]; [|done]. cbn.
  destruct (Reader.init c p nv kw) as [self|] eqn:Hinit; [|done]. cbn.
  intros Hread. exists c, nv, kw, self. repeat split; try done.
  unfold Reader.init in Hinit.
  destruct (validate_file_path _); [|done]. cbn in Hinit.
  destruct (negb (truthy nv)); [|by injection Hinit as <-].
  destruct (Reader.validate_required_fields _); [|done].
  by injection Hinit as <-.
Qed.




End charting.



(** ** The chart history *)

Import Database.

Lemma loads_dumps (v : option (gmap string pyval)) : loads (dumps v) = v.
Proof.
  destruct v as [d|]; [|done]. cbn. f_equal. apply map_eq. intros k.
  rewrite !lookup_fmap. destruct (d !! k) as [[]|]; done.
Qed.

Lemma int64_max_eq : int64_max = 9223372036854775807%Z.
Proof. reflexivity. Qed.

Lemma int64_min_eq : int64_min = (-9223372036854775808)%Z.
Proof. reflexivity. Qed.

Lemma in_int64_iff (z : Z) :
  in_int64 z = true ↔ (-9223372036854775808 ≤ z ≤ 9223372036854775807)%Z.
Proof.
  unfold in_int64. rewrite int64_max_eq, int64_min_eq.
  rewrite andb_true_iff, !Z.leb_le. done.
Qed.

Lemma largest_nil (l : list Z) : largest l = None → l = [].
Proof. by destruct l. Qed.

Lemma largest_bounds (l : list Z) (m : Z) :
  largest l = Some m → m ∈ l ∧ ∀ i, i ∈ l → (i ≤ m)%Z.
Proof.
  revert m. induction l as [|x l IH]; [done|]. intros m.
  change (largest (x :: l)) with (Some (from_option (Z.max x) x (largest l))).
  destruct (largest l) as [m'|] eqn:Hl; cbn [from_option]; intros [= <-].
  - destruct (IH m' eq_refl) as [Hin Hle]. split.
    + destruct (Z.max_spec x m') as [[_ ->]|[_ ->]];
        apply elem_of_cons; [by right|by left].
    + intros i [->|Hi]%elem_of_cons; [lia|]. specialize (Hle i Hi). lia.
  - apply largest_nil in Hl as ->. split; [apply elem_of_cons; by left|].
    intros i [->|Hi]%elem_of_cons; [lia|]. by apply elem_of_nil in Hi.
Qed.

(** An id the store assigns is unused and in range. *)
Lemma assign_id_fresh (table : gmap Z row) (draw : option Z) (i : Z) :
  well_formed table → assign_id table draw = Ok i →
  table !! i = None ∧ in_int64 i = true.
Proof.
  intros Hwf. unfold assign_id, largest_id.
  destruct (largest (elements (dom table))) as [m|] eqn:Hm.
  - apply largest_bounds in Hm as [Hin Hle].
    apply elem_of_elements, elem_of_dom in Hin.
    apply Hwf, in_int64_iff in Hin.
    destruct (m <? int64_max)%Z eqn:Hlt.
    + intros [= <-]. apply Z.ltb_lt in Hlt. rewrite int64_max_eq in Hlt. split.
      * apply eq_None_not_Some. intros Hsome.
        apply elem_of_dom, elem_of_elements, Hle in Hsome. lia.
      * apply in_int64_iff. lia.
    + destruct draw as [j|]; [|done].
      destruct (((1 <=? j) && (j <=? int64_max))%Z) eqn:Hrange; [|done].
      case_bool_decide as Hsome; [done|]. cbn. intros [= <-].
      apply andb_true_iff in Hrange as [H1 H2].
      apply Z.leb_le in H1, H2. rewrite int64_max_eq in H2. split.
      * by apply eq_None_not_Some.
      * apply in_int64_iff. lia.
  - apply largest_nil, elements_empty_inv in Hm. intros [= <-]. split; [|done].
    apply not_elem_of_dom. rewrite leibniz_equiv_iff in Hm. rewrite Hm.
    apply not_elem_of_empty.
Qed.

(** Below the largest id there is, the store always finds an id. *)
Lemma assign_id_succeeds (table : gmap Z row) (draw : option Z) :
  (∀ i, is_Some (table !! i) → (i < int64_max)%Z) →
  ∃ i, assign_id table draw = Ok i.
Proof.
  intros Hbelow. unfold assign_id, largest_id.
  destruct (largest (elements (dom table))) as [m|] eqn:Hm; [|eauto].
  apply largest_bounds in Hm as [Hin _].
  apply elem_of_elements, elem_of_dom, Hbelow, Z.ltb_lt in Hin.
  rewrite Hin. eauto.
Qed.

(** What a successful [create] did. *)
Lemma create_ok_inv (table : gmap Z row) (kwargs : values) (draw : option Z)
    (table' : gmap Z row) :
  well_formed table → create table kwargs draw = Ok table' →
  ∃ i name,
    v_file_name kwargs = Some name
    ∧ table !! i = None ∧ in_int64 i = true
    ∧ table' = <[i := {| row_file_name := name;
                         row_extra_data := dumps <$> v_extra_data kwargs |}]> table.
Proof.
  intros Hwf. unfold create.
  assert (∀ i, match v_id kwargs with
               | Some i => if in_int64 i then Ok i else Raise OverflowError
               | None => assign_id table draw
               end = Ok i → in_int64 i = true) as Hrange.
  { intros i. destruct (v_id kwargs) as [j|].
    - destruct (in_int64 j) eqn:Hj; [|done]. by intros [= <-].
    - by intros [_ ?]%assign_id_fresh. }
  destruct (match v_id kwargs with Some _ => _ | None => _ end) as [i|];
    [|done]. cbn.
  destruct (v_file_name kwargs) as [name|]; [|done].
  case_bool_decide as Hsome; [done|]. intros [= <-].
  exists i, name. split; [done|]. split; [by apply eq_None_not_Some|].
  split; [by apply Hrange|done].
Qed.

Lemma create_then_get (table : gmap Z row) (name : string)
    (x : option (option (gmap string pyval))) (draw : option Z) :
  well_formed table →
  let kwargs := {| v_id := None; v_file_name := Some name; v_extra_data := x |} in
  (∀ table', create table kwargs draw = Ok table' →
     ∃ i, table !! i = None ∧ dom table' = {[i]} ∪ dom table
          ∧ get_chart table' i
            = Ok (Some {| id := i; file_name := name; extra_data := mjoin x |}))
  ∧ ((∀ i, is_Some (table !! i) → (i < int64_max)%Z) →
     ∃ table', create table kwargs draw = Ok table').
Proof.
  intros Hwf kwargs. split.
  - intros table' (i & name' & [= <-] & Hnone & Hrange & ->)%create_ok_inv;
      [|done].
    exists i. split; [done|]. split; [by rewrite dom_insert_L|].
    unfold get_chart. rewrite Hrange, lookup_insert_eq. cbn. unfold load. cbn.
    do 3 f_equal. destruct x as [v|]; [|done]. cbn. apply loads_dumps.
  - intros Hbelow. destruct (assign_id_succeeds table draw Hbelow) as [i Hi].
    unfold create. cbn. rewrite Hi. cbn.
    apply (assign_id_fresh _ _ _ Hwf) in Hi as [Hnone _].
    rewrite bool_decide_eq_false_2 by (rewrite Hnone; by intros [? ?]). eauto.
Qed.

Lemma history_well_formed : well_formed Sample.history.
Proof.
  intros i [r Hr]. unfold Sample.history in Hr.
  apply lookup_singleton_Some in Hr as [<- _]. reflexivity.
Qed.

Lemma history_below_largest i :
  is_Some (Sample.history !! i) → (i < int64_max)%Z.
Proof.
  intros [r Hr]. unfold Sample.history in Hr.
  apply lookup_singleton_Some in Hr as [<- _]. reflexivity.
Qed.



(** * Further properties of the code *)

(** ** [validate_required_fields] *)

Lemma check_field_raise (R : gmap string pytype) (P : gmap string pyval) f e :
  check_field R P f = Raise e →
  (P !! f = None ∧ e = KeyError (VStr f))
  ∨ ∃ v, P !! f = Some v
         ∧ ((R !! f = None ∧ e = KeyError (VStr f))
            ∨ (is_Some (R !! f) ∧ truthy v = false ∧ e = ValueError f)
            ∨ (∃ t, R !! f = Some t ∧ truthy v = true ∧ type_of v ≠ t
                    ∧ e = TypeError (WrongFieldType f t (type_of v)))).
Proof.
  unfold check_field. destruct (P !! f) as [v|]; [|intros [= <-]; by left].
  intros H. right. exists v. split; [done|].
  destruct (R !! f) as [t|]; [|injection H as <-; by left].
  destruct (truthy v); cbn in H.
  - case_bool_decide as Ht; [|done]. injection H as <-. right. right.
    exists t. by repeat split.
  - injection H as <-. right. left. by repeat split.
Qed.

Lemma check_fields_raise (R : gmap string pytype) (P : gmap string pyval) l e :
  check_fields R P l = Raise e → ∃ f, f ∈ l ∧ check_field R P f = Raise e.
Proof.
  induction l as [|f l IH]; [done|]. cbn.
  destruct (check_field R P f) as [[]|e'] eqn:Hf; cbn.
  - intros (g & Hg & He)%IH. exists g. split; [|done]. apply elem_of_cons. by right.
  - intros [= <-]. exists f. split; [|done]. apply elem_of_cons. by left.
Qed.

(** X1. Validation succeeds exactly when the schema is empty, or the
    provided parameters have the keys of the schema and no others, each
    value truthy and of exactly the declared type. *)
Theorem validate_succeeds_iff (R : gmap string pytype) (P : gmap string pyval) :
  Files.validate_required_fields R P = Ok tt
  ↔ R = ∅
    ∨ (dom P = dom R
       ∧ ∀ k v, P !! k = Some v → truthy v = true ∧ R !! k = Some (type_of v)).
Proof. apply validate_ok. Qed.

Lemma validate_succeeds_iff_witness :
  Files.validate_required_fields Sample.sqlite_schema Sample.table_only = Ok tt.
Proof.
  apply validate_succeeds_iff. right. split.
  - apply (bool_decide_eq_true_1 (_ = _)). by vm_compute.
  - unfold Sample.table_only. intros k v [[<- <-]|[_ H]]%lookup_insert_Some.
    + split; by vm_compute.
    + by rewrite lookup_empty in H.
Defined.

(** X2. What each failure of validation means: the assertion on absent
    parameters fires only for an empty mapping, the one on missing
    parameters carries exactly the required names that are not provided, a
    [ValueError] names a provided falsy value, a [TypeError] a truthy value
    whose type differs from the declared one, and a [KeyError] a provided
    name the schema does not have.  Nothing else is raised. *)
Theorem validate_failure_reason (R : gmap string pytype) (P : gmap string pyval)
    (e : exn) :
  Files.validate_required_fields R P = Raise e →
  R ≠ ∅
  ∧ match e with
    | AssertionError ParametersNotGiven => P = ∅
    | AssertionError (ParametersMissing names) =>
        P ≠ ∅ ∧ names = dom R ∖ dom P ∧ names ≠ ∅
    | ValueError f =>
        ∃ v, P !! f = Some v ∧ truthy v = false ∧ is_Some (R !! f)
    | TypeError (WrongFieldType f t actual) =>
        ∃ v, P !! f = Some v ∧ truthy v = true ∧ R !! f = Some t
             ∧ type_of v = actual ∧ actual ≠ t
    | KeyError key =>
        ∃ f, key = VStr f ∧ is_Some (P !! f) ∧ R !! f = None ∧ dom R ∖ dom P = ∅
    | _ => False
    end.
Proof.
  unfold Files.validate_required_fields, validate_required_fields_in.
  destruct (decide (R = ∅)) as [HR|HR].
  { by rewrite bool_decide_eq_true_2 by done. }
  rewrite bool_decide_eq_false_2 by done. intros H. split; [done|]. revert H.
  destruct (decide (P = ∅)) as [HP|HP].
  { rewrite (bool_decide_eq_true_2 (P = ∅)) by done. cbn. by intros [= <-]. }
  rewrite (bool_decide_eq_false_2 (P = ∅)) by done. cbn.
  destruct (decide (dom R ∖ dom P = ∅)) as [Hsub|Hsub].
  2:{ rewrite bool_decide_eq_false_2 by done. cbn. by intros [= <-]. }
  rewrite bool_decide_eq_true_2 by done. cbn.
  intros (f & Hf & He)%check_fields_raise.
  apply elem_of_elements, elem_of_dom in Hf as [v Hv].
  apply check_field_raise in He as [[Hno _]|(v' & Hv' & He)]; [congruence|].
  rewrite Hv in Hv'. injection Hv' as <-.
  destruct He as [[Hno ->]|[(Hsome & Hf & ->)|(t & Ht & Htr & Hne & ->)]].
  - exists f. rewrite Hv. eauto.
  - exists v. eauto.
  - exists v. by repeat split.
Qed.

Lemma validate_failure_reason_witness :
  is_Some (Sample.sqlite_parameters !! "sheet")
  ∧ Sample.sqlite_schema !! "sheet" = None.
Proof.
  destruct (validate_failure_reason Sample.sqlite_schema Sample.sqlite_parameters
              (KeyError (VStr "sheet")))
    as (_ & f & Hf & Hsome & Hno & _); [by vm_compute|].
  injection Hf as <-. by split.
Defined.

(** X3. A required name that is not provided is reported before any value
    is looked at: whatever the provided values are, the failure is the
    assertion listing exactly the missing names. *)
Theorem validate_reports_missing_first (R : gmap string pytype)
    (P : gmap string pyval) (k : string) :
  P ≠ ∅ → is_Some (R !! k) → P !! k = None →
  Files.validate_required_fields R P = Raise (MissingParametersError (dom R ∖ dom P))
  ∧ k ∈ dom R ∖ dom P.
Proof.
  intros HP HR Hk.
  assert (k ∈ dom R ∖ dom P) as Hin.
  { apply elem_of_difference. split; [by apply elem_of_dom|].
    by apply not_elem_of_dom. }
  split; [|done].
  unfold Files.validate_required_fields, validate_required_fields_in.
  rewrite bool_decide_eq_false_2.
  2:{ intros ->. rewrite lookup_empty in HR. by destruct HR. }
  rewrite (bool_decide_eq_false_2 (P = ∅)) by done. cbn.
  rewrite bool_decide_eq_false_2; [done|].
  intros Hempty. rewrite Hempty in Hin. by apply not_elem_of_empty in Hin.
Qed.

Lemma validate_reports_missing_first_witness :
  Files.validate_required_fields Sample.sqlite_schema (<["sheet" := VStr ""]> ∅)
  = Raise (MissingParametersError
             (dom Sample.sqlite_schema ∖ dom (<["sheet" := VStr ""]> (∅ : gmap string pyval)))).
Proof.
  apply (validate_reports_missing_first Sample.sqlite_schema
           (<["sheet" := VStr ""]> ∅) "table_name").
  - apply (bool_decide_eq_true_1 (_ ≠ _)). by vm_compute.
  - exists Tstr. by vm_compute.
  - by vm_compute.
Defined.

(** X4. Python does not fix the order in which the set of provided names
    is visited; whether validation succeeds is the same for every order
    that visits each provided name. *)
Theorem validate_success_order_free (R : gmap string pytype) (P : gmap string pyval)
    (order1 order2 : gset string → list string) :
  (∀ X k, k ∈ order1 X ↔ k ∈ X) → (∀ X k, k ∈ order2 X ↔ k ∈ X) →
  validate_required_fields_in order1 R P = Ok tt
  ↔ validate_required_fields_in order2 R P = Ok tt.
Proof. intros H1 H2. by rewrite !validate_in_ok. Qed.

Lemma validate_success_order_free_witness :
  validate_required_fields_in elements
    (Reader.required_fields MySQLReader) Sample.connection = Ok tt
  ↔ validate_required_fields_in (λ X, reverse (elements X))
      (Reader.required_fields MySQLReader) Sample.connection = Ok tt.
Proof.
  apply validate_success_order_free.
  - intros X k. apply elem_of_elements.
  - intros X k. rewrite elem_of_reverse. apply elem_of_elements.
Defined.

(** ** Readers *)

(** A path ends with its own last dot-separated piece. *)
Lemma split_last_suffix s :
  (∀ w, split "." s = [w] → w = s)
  ∧ ∃ stem, s = stem +:+ extension_of s.
Proof.
  unfold extension_of. induction s as [|c s [IH1 [stem IH2]]].
  { split; [by intros w [= <-]|]. by exists "". }
  cbn [split]. destruct (Ascii.eqb c ".") eqn:Hc.
  - pose proof (split_nonempty s) as Hne.
    destruct (split "." s) as [|w ws] eqn:Hs; [done|]. split; [done|].
    exists (String c stem). cbn [String.append]. f_equal.
    rewrite IH2 at 1. f_equal.
  - pose proof (split_nonempty s) as Hne.
    destruct (split "." s) as [|w [|w2 ws]] eqn:Hs; [done| |].
    + rewrite (IH1 w eq_refl). split; [by intros ? [= <-]|]. by exists "".
    + split; [done|]. exists (String c stem). cbn [String.append]. f_equal.
      rewrite IH2 at 1. f_equal.
Qed.

Lemma length_app a b :
  String.length (a +:+ b) = String.length a + String.length b.
Proof. induction a as [|c a IH]; [done|]. simpl. by rewrite IH. Qed.

Lemma substring_all s : String.substring 0 (String.length s) s = s.
Proof. induction s as [|c s IH]; [done|]. simpl. by rewrite IH. Qed.

Lemma substring_skip stem e :
  String.substring (String.length stem) (String.length e) (stem +:+ e) = e.
Proof. induction stem as [|c stem IH]; simpl; [apply substring_all|done]. Qed.

Lemma endswith_append stem e : endswith (stem +:+ e) e = true.
Proof.
  unfold endswith. apply andb_true_intro. split.
  - apply Nat.leb_le. rewrite length_app. lia.
  - apply String.eqb_eq. rewrite length_app.
    replace (String.length stem + String.length e - String.length e)
      with (String.length stem) by lia.
    apply substring_skip.
Qed.

Lemma endswith_extension_of p : endswith p (extension_of p) = true.
Proof.
  destruct (split_last_suffix p) as [_ [stem Hp]]. rewrite Hp at 1.
  apply endswith_append.
Qed.

(** The path check of a class that declares an extension. *)
Lemma validate_file_path_declared c ext p kw nv :
  allowed_extension c = Some ext →
  Reader.validate_file_path
    {| class_of := c; file_path := p; extra_kwargs := kw; no_validate := nv |}
  = if is_remote c then Ok tt else py_assert (endswith p ext) SuffixMismatch.
Proof. destruct c; intros [= <-]; reflexivity. Qed.

Lemma validate_file_path_undeclared c p kw nv :
  allowed_extension c = None →
  Reader.validate_file_path
    {| class_of := c; file_path := p; extra_kwargs := kw; no_validate := nv |}
  = Raise (if bool_decide (c = BaseReader) then TypeError NotCallable
           else AssertionError ExtensionNotDeclared).
Proof. destruct c; intros [=]; reflexivity. Qed.

Lemma init_ok_iff c p nv kw r :
  Reader.init c p nv kw = Ok r
  ↔ r = {| class_of := c; file_path := p; extra_kwargs := kw; no_validate := nv |}
    ∧ Reader.validate_file_path r = Ok tt
    ∧ (truthy nv = true
       ∨ Files.validate_required_fields (Reader.required_fields c) kw = Ok tt).
Proof.
  unfold Reader.init, Reader.validate_required_fields. cbn [class_of extra_kwargs].
  destruct (Reader.validate_file_path _) as [[]|e] eqn:Hp; cbn.
  2:{ split; [done|]. intros (-> & H & _). congruence. }
  destruct (truthy nv); cbn.
  - split; [intros [= <-]; auto|]. by intros (-> & _).
  - destruct (Files.validate_required_fields _ kw) as [[]|e]; cbn.
    + split; [intros [= <-]; auto|]. by intros (-> & _).
    + split; [done|]. by intros (_ & _ & [|]).
Qed.

(** X5. Constructing a reader.  A class that declares an extension yields
    an instance exactly when the path ends with that extension (remote
    classes do not look at the path) and validation is switched off, or the
    class asks for no parameters, or the parameters have exactly the
    required names with truthy values of the declared types.  A local path
    with the wrong ending fails on the suffix whatever the parameters are;
    a class without an extension cannot be instantiated. *)
Theorem reader_init_iff (c : reader_class) (p : string) (nv : pyval)
    (kw : gmap string pyval) :
  match allowed_extension c with
  | Some ext =>
      (∀ r, Reader.init c p nv kw = Ok r
            ↔ r = {| class_of := c; file_path := p; extra_kwargs := kw;
                     no_validate := nv |}
              ∧ (is_remote c = true ∨ endswith p ext = true)
              ∧ (truthy nv = true
                 ∨ Reader.required_fields c = ∅
                 ∨ (dom kw = dom (Reader.required_fields c)
                    ∧ ∀ k v, kw !! k = Some v →
                             truthy v = true
                             ∧ Reader.required_fields c !! k = Some (type_of v))))
      ∧ (is_remote c = false → endswith p ext = false →
         Reader.init c p nv kw = Raise (AssertionError SuffixMismatch))
  | None => ∀ r, Reader.init c p nv kw ≠ Ok r
  end.
Proof.
  destruct (allowed_extension c) as [ext|] eqn:Hext.
  - split.
    + intros r. rewrite init_ok_iff, validate_ok. split.
      * intros (-> & Hp & Hv). split; [done|].
        rewrite (validate_file_path_declared _ _ _ _ _ Hext) in Hp.
        split; [|tauto]. destruct (is_remote c); [by left|right].
        by destruct (endswith p ext).
      * intros (-> & Hp & Hv). split; [done|].
        rewrite (validate_file_path_declared _ _ _ _ _ Hext).
        split; [|tauto]. destruct (is_remote c); [done|].
        by destruct Hp as [?| ->].
    + intros Hrem Hend. unfold Reader.init.
      rewrite (validate_file_path_declared _ _ _ _ _ Hext), Hrem, Hend. done.
  - intros r (-> & Hp & _)%init_ok_iff.
    by rewrite (validate_file_path_undeclared _ _ _ _ Hext) in Hp.
Qed.

Lemma reader_init_iff_witness :
  Reader.init CsvReader "data.json" (VBool true) ∅
  = Raise (AssertionError SuffixMismatch).
Proof.
  pose proof (reader_init_iff CsvReader "data.json" (VBool true) ∅) as H.
  change (allowed_extension CsvReader) with (Some "csv") in H.
  destruct H as [_ H]. apply H; reflexivity.
Defined.

Lemma read_kind_of_class (pd : Pandas.api) (self : reader) (r : pyobj) :
  Reader.read pd self = Ok r →
  match class_of self with
  | BaseReader | BaseFileReader => False
  | CsvReader =>
      ∃ df, Pandas.read_csv pd (file_path self) = Ok df ∧ r = ODataFrame df
  | JsonReader =>
      ∃ df, Pandas.read_json pd (file_path self) = Ok df ∧ r = ODataFrame df
  | PickleReader =>
      ∃ df, Pandas.read_pickle pd (file_path self) = Ok df ∧ r = ODataFrame df
  | HtmlReader =>
      ∃ dfs, Pandas.read_html pd (file_path self) = Ok dfs ∧ r = OList dfs
  | XmlReader =>
      (∃ df, Pandas.read_xml pd (file_path self) = Ok df) ∧ r = ONone
  | SqliteReader =>
      ∃ df, Pandas.read_sql_table pd (kwarg self "table_name")
              ("sqlite:///" +:+ file_path self) = Ok df
            ∧ r = ODataFrame df
  | _ =>
      ∃ url df, Pandas.read_sql_table pd (kwarg self "table_name") url = Ok df
                ∧ r = ODataFrame df
  end.
Proof.
  unfold Reader.read. destruct (class_of self); cbn; try done;
    match goal with
    | |- context [mbind _ ?m] =>
        destruct m as [x|e] eqn:Hm; cbn; [intros [= <-]; eauto | done]
    end.
Qed.

(** X6. What [read] can return.  Only the HTML reader returns a list and
    only the XML reader returns [None]; every other reader that returns at
    all returns the table its decoder produced, with no column removed; the
    two abstract classes never return. *)
Theorem read_result_kind (pd : Pandas.api) (self : reader) (r : pyobj) :
  Reader.read pd self = Ok r →
  match class_of self with
  | BaseReader | BaseFileReader => False
  | CsvReader =>
      ∃ df, Pandas.read_csv pd (file_path self) = Ok df ∧ r = ODataFrame df
  | JsonReader =>
      ∃ df, Pandas.read_json pd (file_path self) = Ok df ∧ r = ODataFrame df
  | PickleReader =>
      ∃ df, Pandas.read_pickle pd (file_path self) = Ok df ∧ r = ODataFrame df
  | HtmlReader =>
      ∃ dfs, Pandas.read_html pd (file_path self) = Ok dfs ∧ r = OList dfs
  | XmlReader =>
      (∃ df, Pandas.read_xml pd (file_path self) = Ok df) ∧ r = ONone
  | SqliteReader =>
      ∃ df, Pandas.read_sql_table pd (kwarg self "table_name")
              ("sqlite:///" +:+ file_path self) = Ok df
            ∧ r = ODataFrame df
  | _ =>
      ∃ url df, Pandas.read_sql_table pd (kwarg self "table_name") url = Ok df
                ∧ r = ODataFrame df
  end.
Proof. apply read_kind_of_class. Qed.

Lemma read_result_kind_witness :
  ∃ dfs, Pandas.read_html Sample.disk "page.html" = Ok dfs
         ∧ OList [Sample.sales_table] = OList dfs.
Proof.
  apply (read_result_kind Sample.disk
           {| class_of := HtmlReader; file_path := "page.html";
              extra_kwargs := ∅; no_validate := VBool false |}
           (OList [Sample.sales_table])).
  reflexivity.
Defined.

(** ** The registries and source resolution *)

Lemma by_extension_fold (l : list reader_class) (d : gmap string reader_class) e c :
  foldl (λ d cls, match allowed_extension cls with
                  | Some ext => <[ext := cls]> d
                  | None => d
                  end) d l !! e = Some c →
  d !! e = Some c ∨ (c ∈ l ∧ allowed_extension c = Some e).
Proof.
  revert d. induction l as [|x l IH]; intros d; cbn [foldl]; [auto|].
  intros [H|[Hin Hext]]%IH.
  - destruct (allowed_extension x) as [ex|] eqn:Hx; [|by left].
    apply lookup_insert_Some in H as [[<- <-]|[_ H]]; [|by left].
    right. split; [|done]. apply elem_of_cons. by left.
  - right. split; [|done]. apply elem_of_cons. by right.
Qed.

Lemma by_extension_fold_keeps (l : list reader_class) (d : gmap string reader_class) e :
  is_Some (d !! e) →
  is_Some (foldl (λ d cls, match allowed_extension cls with
                           | Some ext => <[ext := cls]> d
                           | None => d
                           end) d l !! e).
Proof.
  revert d. induction l as [|x l IH]; intros d Hd; cbn [foldl]; [done|].
  apply IH. destruct (allowed_extension x) as [ex|]; [|done].
  rewrite lookup_insert. by case_decide.
Qed.

Lemma by_extension_lookup (l : list reader_class) e c :
  by_extension l !! e = Some c → c ∈ l ∧ allowed_extension c = Some e.
Proof.
  unfold by_extension. intros [H|H]%by_extension_fold; [|done].
  by rewrite lookup_empty in H.
Qed.

(** X7. The registry built from a list of classes maps an extension only
    to a class of the list that declares exactly that extension, and every
    extension declared by a class of the list has an entry. *)
Theorem by_extension_registry (l : list reader_class) (e : string) :
  (∀ c, by_extension l !! e = Some c → c ∈ l ∧ allowed_extension c = Some e)
  ∧ (∀ c, c ∈ l → allowed_extension c = Some e → is_Some (by_extension l !! e)).
Proof.
  split; [intros c; apply by_extension_lookup|].
  intros c Hin Hext. unfold by_extension. generalize (∅ : gmap string reader_class).
  induction l as [|x l IH]; intros d; [by apply elem_of_nil in Hin|]. cbn [foldl].
  apply elem_of_cons in Hin as [<-|Hin]; [|by apply IH].
  rewrite Hext. apply by_extension_fold_keeps. rewrite lookup_insert_eq. eauto.
Qed.

Lemma by_extension_registry_witness :
  (SqliteReader ∈ subclasses BaseFileReader
   ∧ allowed_extension SqliteReader = Some "db")
  ∧ is_Some (by_extension (subclasses BaseRemoteDatabaseReader) !! "mariadb+pymysql").
Proof.
  destruct (by_extension_registry (subclasses BaseFileReader) "db") as [H1 _].
  destruct (by_extension_registry (subclasses BaseRemoteDatabaseReader)
              "mariadb+pymysql") as [_ H2].
  split.
  - apply H1. by vm_compute.
  - apply (H2 MariaDBReader); [|reflexivity].
    apply (bool_decide_eq_true_1 (_ ∈ _)). by vm_compute.
Defined.

Lemma validate_file_ok_inv K p e :
  _validate_file K p = Ok e → e = p ∨ e = extension_of p.
Proof.
  rewrite validate_file_unfold. case_bool_decide; [intros [= <-]; by left|].
  destruct (contains "." p); [|done]. case_bool_decide; [|done].
  case_bool_decide; [|done]. intros [= <-]. by right.
Qed.

(** X8. Resolution fails in three ways only, each on an identifier that is
    no dialect tag: it has no dot, or its suffix is not in the allow-list,
    or its suffix has no reader.  The assertion in
    [_get_file_reader_class] never fires on the result of
    [_validate_file], whatever the class attributes are. *)
Theorem resolve_failure_kinds (K : static) (p : string) (e : exn) :
  resolve K p = Raise e →
  _database_readers K !! p = None
  ∧ ((e = AssertionError NoDotInPath ∧ contains "." p = false)
     ∨ (e = UnknownExtensionError ∧ contains "." p = true
        ∧ extension_of p ∉ allowed_extensions K)
     ∨ (e = UnsupportedExtensionError ∧ contains "." p = true
        ∧ extension_of p ∈ allowed_extensions K
        ∧ _extension_readers K !! extension_of p = None)).
Proof.
  unfold resolve. rewrite validate_file_unfold.
  destruct (_database_readers K !! p) as [c|] eqn:Hdb.
  { rewrite bool_decide_eq_true_2 by eauto. cbn. unfold _get_file_reader_class.
    rewrite Hdb. by destruct (_extension_readers K !! p). }
  rewrite bool_decide_eq_false_2 by (by intros [? ?]).
  destruct (contains "." p) eqn:Hdot.
  2:{ intros [= <-]. split; [done|]. by left. }
  case_bool_decide as Hin.
  2:{ cbn. intros [= <-]. split; [done|]. right; by left. }
  destruct (_extension_readers K !! extension_of p) as [c|] eqn:Hext.
  - rewrite bool_decide_eq_true_2 by eauto. cbn. unfold _get_file_reader_class.
    by rewrite Hext.
  - rewrite bool_decide_eq_false_2 by (by intros [? ?]). cbn.
    intros [= <-]. split; [done|]. right. by right.
Qed.

Lemma resolve_failure_kinds_witness :
  _database_readers FileManager !! "notes" = None
  ∧ ((AssertionError NoDotInPath = AssertionError NoDotInPath
      ∧ contains "." "notes" = false)
     ∨ (AssertionError NoDotInPath = UnknownExtensionError
        ∧ contains "." "notes" = true
        ∧ extension_of "notes" ∉ allowed_extensions FileManager)
     ∨ (AssertionError NoDotInPath = UnsupportedExtensionError
        ∧ contains "." "notes" = true
        ∧ extension_of "notes" ∈ allowed_extensions FileManager
        ∧ _extension_readers FileManager !! extension_of "notes" = None)).
Proof.
  apply (resolve_failure_kinds FileManager "notes" (AssertionError NoDotInPath)).
  by vm_compute.
Defined.

Lemma resolved_accepts (l1 l2 : list reader_class) p c kw nv :
  resolve (class_body (by_extension l1) (by_extension l2)) p = Ok c →
  Reader.validate_file_path
    {| class_of := c; file_path := p; extra_kwargs := kw; no_validate := nv |} = Ok tt
  ∧ ∃ ext, allowed_extension c = Some ext ∧ endswith p ext = true.
Proof.
  intros (e & Hv & Hreg)%resolve_registered.
  assert (allowed_extension c = Some e) as Hext.
  { cbn [_extension_readers _database_readers class_body] in Hreg.
    destruct Hreg as [H|[_ H]]; by apply by_extension_lookup in H as [_ H]. }
  assert (endswith p e = true) as Hend.
  { apply validate_file_ok_inv in Hv as [->| ->].
    - apply (endswith_append "" p).
    - apply endswith_extension_of. }
  split; [|eauto].
  rewrite (validate_file_path_declared _ _ _ _ _ Hext), Hend.
  by destruct (is_remote c).
Qed.

(** X9. Whatever classes the two registries are built from, the class an
    identifier resolves to declares an extension the identifier ends with,
    so the reader's own path check passes on every resolved identifier. *)
Theorem resolved_reader_accepts_identifier (l1 l2 : list reader_class)
    (p : string) (c : reader_class) (kw : gmap string pyval) (nv : pyval) :
  resolve (class_body (by_extension l1) (by_extension l2)) p = Ok c →
  Reader.validate_file_path
    {| class_of := c; file_path := p; extra_kwargs := kw; no_validate := nv |} = Ok tt
  ∧ ∃ ext, allowed_extension c = Some ext ∧ endswith p ext = true.
Proof. apply resolved_accepts. Qed.

Lemma resolved_reader_accepts_identifier_witness :
  Reader.validate_file_path
    {| class_of := PickleReader; file_path := "archive.2024.pickle";
       extra_kwargs := ∅; no_validate := VNone |} = Ok tt
  ∧ ∃ ext, allowed_extension PickleReader = Some ext
           ∧ endswith "archive.2024.pickle" ext = true.
Proof.
  apply (resolved_reader_accepts_identifier (subclasses BaseFileReader)
           (subclasses BaseRemoteDatabaseReader)).
  by vm_compute.
Defined.

(** ** The manager's fields *)

Lemma required_fields_of_resolved
    (extension_readers database_readers : gmap string reader_class)
    (self : instance) (p : string) :
  (get_required_fields (class_body extension_readers database_readers) self p).2
  = c ← resolve (class_body extension_readers database_readers) p;
    Ok (<["plot_verbose" := Tstr]> (<["plot_value" := Tstr]> (Reader.required_fields c)),
        <["plot_verbose" := "Поле обозначения координат"]>
          (<["plot_value" := "Поле координат"]>
             (Reader.required_fields_verbose_names c))).
Proof.
  unfold resolve, get_required_fields. cbn [snd].
  destruct (_validate_file _ p) as [e|err]; [|done]. cbn.
  destruct (_get_file_reader_class _ e) as [c|err]; [|done]. cbn.
  f_equal; f_equal; rewrite <- !insert_union_l; by rewrite (left_id_L ∅ (∪)).
Qed.

Lemma labels_cover_schema (c : reader_class) :
  dom (Reader.required_fields_verbose_names c) = dom (Reader.required_fields c).
Proof.
  destruct c; apply (bool_decide_eq_true_1 (_ = _)); by vm_compute.
Qed.

(** X10. The setter stores the assigned values before it validates them
    and never touches the recorded identifier, so a rejected assignment
    leaves the rejected values in the manager; on a manager that has no
    identifier recorded yet it fails with a [TypeError]. *)
Theorem set_fields_keeps_value (K : static) (self : instance)
    (value : gmap string pyval) :
  fields (set_fields K self value).1 = value
  ∧ __current_file_path (set_fields K self value).1 = __current_file_path self
  ∧ (__current_file_path self = None →
     (set_fields K self value).2 = Raise (TypeError NotIterable)).
Proof.
  unfold set_fields, _validate_required_fields. cbn [__current_file_path].
  destruct (__current_file_path self) as [p|]; cbn; [|done].
  by repeat split.
Qed.

Lemma set_fields_keeps_value_witness :
  (set_fields FileManager FileManager.init (Sample.axes "city" "sales")).2
  = Raise (TypeError NotIterable).
Proof.
  destruct (set_fields_keeps_value FileManager FileManager.init
              (Sample.axes "city" "sales")) as (_ & _ & H).
  apply H. reflexivity.
Defined.

Lemma set_fields_result (K : static) (self : instance) (p : string)
    (value : gmap string pyval) :
  __current_file_path self = Some p →
  (set_fields K self value).2
  = schema ← (get_required_fields K self p).2;
    Files.validate_required_fields schema.1 value.
Proof.
  intros Hp. unfold set_fields, _validate_required_fields.
  cbn [__current_file_path]. by rewrite Hp.
Qed.

(** X11. After [get_required_fields] has recorded an identifier that
    resolves to class [c], assigning the fields succeeds exactly when the
    values have the names of the schema of [c] plus the two axis names and
    no others, each value truthy and of the declared type. *)
Theorem set_fields_succeeds_iff
    (extension_readers database_readers : gmap string reader_class)
    (self : instance) (p : string) (c : reader_class) (value : gmap string pyval) :
  let K := class_body extension_readers database_readers in
  let schema := <["plot_verbose" := Tstr]>
                  (<["plot_value" := Tstr]> (Reader.required_fields c)) in
  resolve K p = Ok c →
  (set_fields K (get_required_fields K self p).1 value).2 = Ok tt
  ↔ dom value = dom schema
    ∧ ∀ k v, value !! k = Some v →
             truthy v = true ∧ schema !! k = Some (type_of v).
Proof.
  intros K schema Hres. rewrite (set_fields_result K _ p) by done.
  subst K. rewrite required_fields_of_resolved, Hres. cbn [mbind result_bind fst].
  fold schema. rewrite validate_ok. split; [|by right].
  intros [Hempty|H]; [|done]. by apply insert_non_empty in Hempty.
Qed.

Lemma set_fields_succeeds_iff_witness :
  (set_fields FileManager
     (get_required_fields FileManager FileManager.init "data.csv").1
     (Sample.axes "city" "sales")).2 = Ok tt
  ↔ dom (Sample.axes "city" "sales")
    = dom (<["plot_verbose" := Tstr]>
             (<["plot_value" := Tstr]> (Reader.required_fields CsvReader)))
    ∧ ∀ k v, Sample.axes "city" "sales" !! k = Some v →
             truthy v = true
             ∧ (<["plot_verbose" := Tstr]>
                  (<["plot_value" := Tstr]> (Reader.required_fields CsvReader)))
               !! k = Some (type_of v).
Proof.
  apply (set_fields_succeeds_iff
           (by_extension (subclasses BaseFileReader))
           (by_extension (subclasses BaseRemoteDatabaseReader))
           FileManager.init "data.csv" CsvReader (Sample.axes "city" "sales")).
  by vm_compute.
Defined.

(** X12. The schema [get_required_fields] returns always asks for the two
    axis names as strings, so it is never empty, and every name of the
    schema has a label. *)
Theorem every_required_field_has_label
    (extension_readers database_readers : gmap string reader_class)
    (self : instance) (p : string)
    (schema : gmap string pytype) (labels : gmap string string) :
  (get_required_fields (class_body extension_readers database_readers) self p).2
    = Ok (schema, labels) →
  dom labels = dom schema
  ∧ schema !! "plot_verbose" = Some Tstr
  ∧ schema !! "plot_value" = Some Tstr.
Proof.
  rewrite required_fields_of_resolved.
  destruct (resolve _ p) as [c|e]; [|done]. cbn [mbind result_bind].
  intros [= <- <-]. split; [|split; by simplify_map_eq].
  by rewrite !dom_insert_L, labels_cover_schema.
Qed.

Lemma every_required_field_has_label_witness :
  ∃ schema labels,
    (get_required_fields FileManager FileManager.init "mysql+pymysql").2
      = Ok (schema, labels)
    ∧ dom labels = dom schema
    ∧ schema !! "plot_verbose" = Some Tstr
    ∧ schema !! "plot_value" = Some Tstr.
Proof.
  eexists _, _. split; [by vm_compute|].
  apply (every_required_field_has_label
           (by_extension (subclasses BaseFileReader))
           (by_extension (subclasses BaseRemoteDatabaseReader))
           FileManager.init "mysql+pymysql").
  by vm_compute.
Defined.

(** ** Charting and describing a source *)

Lemma open_file_reserved (K : static) (pd : Pandas.api) p args
    (kwargs : gmap string pyval) :
  is_Some (kwargs !! "self") ∨ is_Some (kwargs !! "file_path") →
  _open_file K pd p args (delete "plot_value" (delete "plot_verbose" kwargs))
  = Raise (TypeError BadArguments).
Proof.
  intros H. unfold _open_file, bind_call.
  rewrite !(lookup_delete_ne _ "plot_value") by done.
  rewrite !(lookup_delete_ne _ "plot_verbose") by done.
  by rewrite bool_decide_eq_true_2.
Qed.

(** X13. [generate_chart] never changes the stored fields.  A keyword
    named [self] or [file_path] is refused with a [TypeError] before the
    body runs.  Otherwise a missing axis parameter is a [KeyError] naming
    it, the label axis first, raised before the source is looked at.  In
    these cases and when the source cannot be opened the manager is left as
    it was; and whenever a chart is returned the recorded identifier has
    been cleared. *)
Theorem generate_chart_state (K : static) (pd : Pandas.api) (self : instance)
    (p : string) (args : list pyval) (kwargs : gmap string pyval) :
  let out := generate_chart K pd self p args kwargs in
  __extra_kwargs out.1 = __extra_kwargs self
  ∧ (is_Some (kwargs !! "self") ∨ is_Some (kwargs !! "file_path") →
     out = (self, Raise (TypeError BadArguments)))
  ∧ (kwargs !! "self" = None → kwargs !! "file_path" = None →
     kwargs !! "plot_verbose" = None →
     out = (self, Raise (KeyError (VStr "plot_verbose"))))
  ∧ (kwargs !! "self" = None → kwargs !! "file_path" = None →
     is_Some (kwargs !! "plot_verbose") → kwargs !! "plot_value" = None →
     out = (self, Raise (KeyError (VStr "plot_value"))))
  ∧ (∀ e, is_Some (kwargs !! "plot_verbose") → is_Some (kwargs !! "plot_value") →
          _open_file K pd p args (delete "plot_value" (delete "plot_verbose" kwargs))
            = Raise e →
          out = (self, Raise e))
  ∧ (∀ fig, out.2 = Ok fig → __current_file_path out.1 = None).
Proof.
  unfold generate_chart, bind_call, pop.
  destruct (decide (is_Some (kwargs !! "self") ∨ is_Some (kwargs !! "file_path")))
    as [Hres|Hres].
  { rewrite bool_decide_eq_true_2 by done. cbn. repeat split; try done.
    - intros H1 H2. destruct Hres as [[? ?]|[? ?]]; congruence.
    - intros H1 H2. destruct Hres as [[? ?]|[? ?]]; congruence.
    - intros e _ _ He. rewrite (open_file_reserved _ _ _ _ _ Hres) in He.
      by injection He as <-. }
  rewrite bool_decide_eq_false_2 by done. cbn.
  destruct (kwargs !! "plot_verbose") as [x|]; cbn.
  2:{ repeat split; try done; by intros [? ?]. }
  rewrite lookup_delete_ne by done.
  destruct (kwargs !! "plot_value") as [y|]; cbn.
  2:{ repeat split; try done; by intros ? ? ? [? ?]. }
  destruct (_open_file K pd p args _) as [file|e]; cbn.
  - repeat split; try done; by intros ? ? [? ?].
  - repeat split; try done. by intros ? _ _ [= <-].
Qed.

Lemma generate_chart_state_witness :
  generate_chart FileManager Sample.disk FileManager.init "nowhere" []
    (<["plot_value" := VStr "sales"]> ∅)
  = (FileManager.init, Raise (KeyError (VStr "plot_verbose")))
  ∧ generate_chart FileManager Sample.disk FileManager.init "data.csv" []
      (<["self" := VInt 1]> (Sample.axes "city" "sales"))
    = (FileManager.init, Raise (TypeError BadArguments)).
Proof.
  split.
  - destruct (generate_chart_state FileManager Sample.disk FileManager.init
                "nowhere" [] (<["plot_value" := VStr "sales"]> ∅))
      as (_ & _ & H & _).
    apply H; by vm_compute.
  - destruct (generate_chart_state FileManager Sample.disk FileManager.init
                "data.csv" [] (<["self" := VInt 1]> (Sample.axes "city" "sales")))
      as (_ & H & _).
    apply H. left. exists (VInt 1). by vm_compute.
Defined.

Lemma open_file_class (K : static) (pd : Pandas.api) p args kwargs file c :
  resolve K p = Ok c → _open_file K pd p args kwargs = Ok file →
  ∃ self, class_of self = c ∧ Reader.read pd self = Ok file.
Proof.
  intros Hres (c' & nv & kw & self & Hres' & _ & Hinit & _ & Hread)%open_file_inv.
  rewrite Hres in Hres'. injection Hres' as <-.
  apply init_ok_iff in Hinit as (-> & _).
  eexists. split; [|exact Hread]. reflexivity.
Qed.

(** X14. No chart can be made from an XML source, and none from an HTML
    source when the label axis is named by a string: the value read is
    [None], respectively a list, and the subscript fails. *)
Theorem markup_sources_never_chart (K : static) (pd : Pandas.api) (self : instance)
    (p : string) (args : list pyval) (kwargs : gmap string pyval)
    (c : reader_class) (fig : Pyplot.Figure) :
  resolve K p = Ok c →
  c = XmlReader ∨ (c = HtmlReader ∧ ∃ s, kwargs !! "plot_verbose" = Some (VStr s)) →
  (generate_chart K pd self p args kwargs).2 ≠ Ok fig.
Proof.
  intros Hres Hc. unfold generate_chart, pop.
  destruct (bind_call kwargs) as [[]|]; [|done].
  destruct (kwargs !! "plot_verbose") as [x|] eqn:Hx; cbn; [|done].
  rewrite lookup_delete_ne by done.
  destruct (kwargs !! "plot_value") as [y|]; cbn; [|done].
  destruct (_open_file K pd p args _) as [file|e] eqn:Hopen; cbn; [|done].
  destruct (open_file_class _ _ _ _ _ _ _ Hres Hopen) as (reader & Hcls & Hread).
  apply read_kind_of_class in Hread. rewrite Hcls in Hread.
  destruct Hc as [->|[-> [s Hs]]].
  - destruct Hread as [_ ->]. done.
  - destruct Hread as (dfs & _ & ->). by injection Hs as ->.
Qed.

Lemma markup_sources_never_chart_witness :
  (generate_chart FileManager Sample.disk FileManager.init "data.xml" []
     (Sample.axes "city" "sales")).2
  ≠ Ok {| Pyplot.plot_x := Pyplot.ASeries Sample.city;
          Pyplot.plot_y := Pyplot.ASeries Sample.sales |}.
Proof.
  apply (markup_sources_never_chart FileManager Sample.disk FileManager.init
           "data.xml" [] (Sample.axes "city" "sales") XmlReader).
  - by vm_compute.
  - by left.
Defined.



(** ** The chart history, beyond the round trip *)


Lemma listing_unsorted (table : gmap Z row) :
  get_all_charts table ≡ₚ omap (λ i, load i <$> table !! i) (elements (dom table)).
Proof. unfold get_all_charts. by rewrite merge_sort_Permutation. Qed.




(** X19. [get_chart] cannot bind an id outside the 64-bit range and
    fails with an [OverflowError]; for an id in range it returns nothing
    exactly when no record has that id, and a record it returns carries the
    requested id and is one of the listed records. *)
Theorem get_chart_found_iff (table : gmap Z row) (i : Z) :
  (get_chart table i = Raise OverflowError ↔ in_int64 i = false)
  ∧ (get_chart table i = Ok None ↔ in_int64 i = true ∧ table !! i = None)
  ∧ ∀ chart, get_chart table i = Ok (Some chart) →
             Database.id chart = i ∧ chart ∈ get_all_charts table.
Proof.
  unfold get_chart. destruct (in_int64 i); [|by repeat split; try intros [? ?]].
  split; [done|]. split.
  - destruct (table !! i) as [r|]; cbn; [|done]. split; [done|]. by intros [_ ?].
  - intros chart. destruct (table !! i) as [r|] eqn:Hr; cbn; [|done].
    intros [= <-]. split; [done|]. rewrite listing_unsorted.
    apply list_elem_of_omap. exists i. rewrite Hr. split; [|done].
    apply elem_of_elements, elem_of_dom. eauto.
Qed.

Lemma get_chart_found_iff_witness :
  get_chart Sample.history (2 ^ 63) = Raise OverflowError
  ∧ get_chart Sample.history 8 = Ok None.
Proof.
  destruct (get_chart_found_iff Sample.history (2 ^ 63)) as [H1 _].
  destruct (get_chart_found_iff Sample.history 8) as (_ & H2 & _).
  split; [apply H1; reflexivity|]. apply H2. split; [reflexivity|by vm_compute].
Defined.

(** X20. On a table the store can hold, a record created without
    parameters reads back with no parameters, whether [extra_data] was left
    out or passed as [None]; creating it succeeds as long as the largest
    id there is, 2^63 - 1, is not in use. *)
Theorem create_without_parameters (table : gmap Z row) (name : string)
    (x : option (option (gmap string pyval))) (draw : option Z) :
  well_formed table → x = None ∨ x = Some None →
  let kwargs := {| v_id := None; v_file_name := Some name; v_extra_data := x |} in
  (∀ table', create table kwargs draw = Ok table' →
     ∃ i, table !! i = None ∧ dom table' = {[i]} ∪ dom table
          ∧ get_chart table' i
            = Ok (Some {| Database.id := i; Database.file_name := name;
                          extra_data := None |}))
  ∧ ((∀ i, is_Some (table !! i) → (i < int64_max)%Z) →
     ∃ table', create table kwargs draw = Ok table').
Proof.
  intros Hwf Hx. pose proof (create_then_get table name x draw Hwf) as H.
  by destruct Hx as [-> | ->].
Qed.

Lemma create_without_parameters_witness :
  ∃ table' i,
    create Sample.history
      {| v_id := None; v_file_name := Some "data.csv"; v_extra_data := Some None |}
      None = Ok table'
    ∧ get_chart table' i
      = Ok (Some {| Database.id := i; Database.file_name := "data.csv";
                    extra_data := None |}).
Proof.
  destruct (create_without_parameters Sample.history "data.csv" (Some None) None
              history_well_formed) as [Hget Hok]; [by right|].
  destruct (Hok history_below_largest) as [table' Hcreate].
  destruct (Hget table' Hcreate) as (i & _ & _ & Hi). by exists table', i.
Defined.

(** ** Resolution, exactly *)

(** X21. With the allow-list the class body builds, an identifier
    resolves to class [c] exactly when it is a dialect tag and [c] is the
    reader registered for it as a suffix, or failing that as a dialect, or
    when it is no dialect tag, contains a dot and [c] is the reader
    registered for its suffix.  A dialect tag that is also a registered
    suffix thus yields the local-file reader. *)
Theorem resolve_iff (extension_readers database_readers : gmap string reader_class)
    (p : string) (c : reader_class) :
  resolve (class_body extension_readers database_readers) p = Ok c
  ↔ (is_Some (database_readers !! p)
     ∧ (extension_readers !! p = Some c
        ∨ (extension_readers !! p = None ∧ database_readers !! p = Some c)))
    ∨ (database_readers !! p = None ∧ contains "." p = true
       ∧ extension_readers !! extension_of p = Some c).
Proof.
  unfold resolve. rewrite validate_file_unfold.
  cbn [class_body _database_readers _extension_readers allowed_extensions].
  destruct (database_readers !! p) as [d|] eqn:Hdb.
  - rewrite bool_decide_eq_true_2 by eauto. cbn [mbind result_bind].
    unfold _get_file_reader_class.
    cbn [class_body _database_readers _extension_readers]. rewrite Hdb.
    destruct (extension_readers !! p) as [c'|]; split.
    + intros [= <-]. left. split; [eauto|by left].
    + intros [[_ [[= <-]|[? _]]]|[? _]]; done.
    + intros [= <-]. left. split; [eauto|by right].
    + intros [[_ [?|[_ [= <-]]]]|[? _]]; done.
  - rewrite bool_decide_eq_false_2 by (by intros [? ?]).
    destruct (contains "." p).
    2:{ split; [done|]. intros [[[? ?] _]|(_ & ? & _)]; done. }
    destruct (extension_readers !! extension_of p) as [c'|] eqn:Hext.
    + rewrite bool_decide_eq_true_2 by (apply elem_of_keys; eauto).
      rewrite bool_decide_eq_true_2 by eauto. cbn [mbind result_bind].
      unfold _get_file_reader_class. cbn [class_body _extension_readers].
      rewrite Hext. split.
      * intros [= <-]. right. by repeat split.
      * intros [[[? ?] _]|(_ & _ & [= <-])]; done.
    + rewrite bool_decide_eq_false_2.
      2:{ intros [? ?]%elem_of_keys. congruence. }
      split; [done|]. intros [[[? ?] _]|(_ & _ & ?)]; done.
Qed.

Lemma resolve_iff_witness :
  resolve (class_body (<["db" := SqliteReader]> ∅) (<["db" := MySQLReader]> ∅)) "db"
  = Ok SqliteReader.
Proof.
  apply resolve_iff. left. split; [exists MySQLReader; by vm_compute|].
  left. by vm_compute.
Defined.
